(** * GitHub Repository Creator: a shallow embedding of
      [Project/github_repo_creator.py] and the properties of its
      specification.

    The script is straight-line glue around four libraries (PyYAML,
    requests, GitPython and the file system).  The embedding keeps the
    control flow of every function of the script and replaces each library
    call by a primitive of a small state-and-exception monad: the primitive
    records what the call does to the outside world and asks an environment
    record for what the call answers. *)

From Stdlib Require Import ZArith List Ascii String DecimalString Lia.
From stdpp Require Import base gmap strings list fin_maps.

Local Open Scope Z_scope.

(** ** Python strings *)

Module PyStr.

(** [s.startswith(p)] *)
Fixpoint startswith (p s : string) : bool :=
  match p, s with
  | EmptyString, _ => true
  | String a p', String b s' => if Ascii.eqb a b then startswith p' s' else false
  | String _ _, EmptyString => false
  end.

(** [s.split(sep)] for a one-character separator: the pieces between the
    occurrences of [sep], never an empty list.  [cur] is the piece being
    read. *)
Fixpoint split_go (sep : ascii) (cur : string) (s : string) : list string :=
  match s with
  | EmptyString => [cur]
  | String c s' =>
      if Ascii.eqb c sep then cur :: split_go sep EmptyString s'
      else split_go sep (cur +:+ String c EmptyString) s'
  end.

Definition split (sep : ascii) (s : string) : list string :=
  split_go sep EmptyString s.

(** [l[-1]] on a list known to be non-empty ([split] never returns []);
    the default is returned on the empty list only. *)
Definition last_item (l : list string) : string := List.last l EmptyString.

(** [s.replace(old, new)] for a non-empty [old]: every non-overlapping
    occurrence of [old], scanning from the left, is replaced.  [skip]
    counts the characters of a matched occurrence still to be dropped. *)
Fixpoint replace_go (old new : string) (skip : nat) (s : string) : string :=
  match s with
  | EmptyString => EmptyString
  | String c s' =>
      match skip with
      | S k => replace_go old new k s'
      | O =>
          if startswith old s
          then new +:+ replace_go old new (Nat.pred (String.length old)) s'
          else String c (replace_go old new O s')
      end
  end.

(** [s.replace('', new)] puts [new] before every character and at the
    end. *)
Fixpoint replace_empty (new : string) (s : string) : string :=
  match s with
  | EmptyString => new
  | String c s' => new +:+ String c (replace_empty new s')
  end.

Definition replace (old new : string) (s : string) : string :=
  match old with
  | EmptyString => replace_empty new s
  | String _ _ => replace_go old new O s
  end.

(** [s * n] *)
Fixpoint repeat (s : string) (n : nat) : string :=
  match n with
  | O => EmptyString
  | S k => s +:+ repeat s k
  end.

(** [p in s]: [p] occurs in [s]. *)
Fixpoint occurs (p s : string) : bool :=
  startswith p s ||
  match s with
  | EmptyString => false
  | String _ s' => occurs p s'
  end.

(** [s.endswith(p)] and the removal of the last [n] characters, used only
    to word the specification's reading of the default directory. *)
Definition endswith (p s : string) : bool :=
  startswith (String.rev p) (String.rev s).

Definition drop_last (n : nat) (s : string) : string :=
  String.substring 0 (String.length s - n) s.

End PyStr.

(** ** Configuration values and dictionaries *)

(** The scalars a flat YAML mapping holds.  A float is kept with the text
    [str] gives for it. *)
Inductive value : Type :=
  | VNone
  | VBool (b : bool)
  | VInt (z : Z)
  | VFloat (repr : string)
  | VStr (s : string).

(** [str(v)], what an f-string puts in place of [{v}]. *)
Definition py_str (v : value) : string :=
  match v with
  | VNone => "None"
  | VBool true => "True"
  | VBool false => "False"
  | VInt z => NilZero.string_of_int (Z.to_int z)
  | VFloat repr => repr
  | VStr s => s
  end.

(** A Python [dict] with string keys, in insertion order. *)
Module Dict.

Definition t (V : Type) : Type := list (string * V).

(** [d.get(k)] *)
Fixpoint get {V} (d : t V) (k : string) : option V :=
  match d with
  | [] => None
  | (k', v) :: d' => if String.eqb k' k then Some v else get d' k
  end.

(** [k in d] *)
Definition mem {V} (d : t V) (k : string) : bool :=
  match get d k with Some _ => true | None => false end.

(** [d.get(k, default)] *)
Definition get_default {V} (d : t V) (k : string) (default : V) : V :=
  match get d k with Some v => v | None => default end.

(** [d[k] = v]: an existing key keeps its place, a new one goes last. *)
Fixpoint set {V} (d : t V) (k : string) (v : V) : t V :=
  match d with
  | [] => [(k, v)]
  | (k', v') :: d' =>
      if String.eqb k' k then (k', v) :: d' else (k', v') :: set d' k v
  end.

Definition keys {V} (d : t V) : list string := map fst d.

End Dict.

Abbreviation dict := (Dict.t value).

(** ** The outside world *)

(** An HTTP response as the script reads it.  [resp_http_error] is the text
    of the [HTTPError] that [raise_for_status] builds for it, [resp_json]
    what [response.json()] does. *)
Inductive json_outcome : Type :=
  | JsonDecodeError (msg : string)
  | JsonObject (members : Dict.t string).

Record response : Type := mkResponse {
  status_code : Z;
  text : string;
  resp_http_error : string;
  resp_json : json_outcome
}.

(** [response.ok], which is also the truth value of a response:
    [raise_for_status] raises for the codes 400 to 599. *)
Definition is_error_status (code : Z) : bool := (400 <=? code) && (code <? 600).
Definition resp_ok (r : response) : bool := negb (is_error_status (status_code r)).

(** A [requests.exceptions.RequestException]: [str(e)] and [e.response]. *)
Record request_exception : Type := mkRequestException {
  exc_msg : string;
  exc_response : option response
}.

(** The exceptions the script can meet. [SystemExit] is not one of them: it
    is an outcome of its own, since no handler of the script catches it. *)
Inductive exn : Type :=
  | ValueError (msg : string)
  | KeyError (key : string)
  | UnboundLocalError (name : string)
  | FileNotFoundError (msg : string)
  | YAMLError (msg : string)
  | RequestException (e : request_exception)
  | GitCommandError (msg : string).

(** What the library calls of one run answer.  The script is a single pass:
    it reads one file, sends at most one POST and one GET, clones once and
    runs [git add], [git commit] and [git push] at most once each.

    A file that parses is a document whose top level is a mapping with
    string keys and scalar values, the [Dict[str, Any]] that [load_config]
    is annotated to return. *)
Inductive file_outcome : Type :=
  | FileMissing (msg : string)
  | FileMalformed (msg : string)
  | FileParsed (config : dict).

Inductive http_outcome : Type :=
  | HttpRaises (e : request_exception)
  | HttpReturns (r : response).

Record env : Type := mkEnv {
  env_file : file_outcome;          (* open(path) and yaml.safe_load *)
  env_post : http_outcome;          (* requests.post *)
  env_clone : option string;        (* git.Repo.clone_from: Some = GitCommandError *)
  env_get : http_outcome;           (* requests.get *)
  env_add : option string;          (* repo.git.add *)
  env_commit : option string;       (* repo.git.commit *)
  env_push : option string;         (* origin.push *)
  env_abspath : string -> string    (* os.path.abspath *)
}.

Inductive request : Type :=
  | POST (url : string) (headers : Dict.t string) (body : dict)
  | GET (url : string).

Definition is_get (rq : request) : bool :=
  match rq with GET _ => true | POST _ _ _ => false end.

(** What a run has done so far. *)
Record world : Type := mkWorld {
  stdout : list string;               (* one entry per print *)
  net : list request;                 (* requests sent *)
  files : gmap string string;         (* files written, by path *)
  clones : list (string * string);    (* (clone url, directory) *)
  staged : list (string * string);    (* (repository, path) *)
  commits : list (string * string);   (* (repository, message) *)
  pushes : list (string * string)     (* (repository, remote) *)
}.

(** The marks a library call leaves on the world. *)
Definition add_stdout (line : string) (w : world) : world :=
  mkWorld (stdout w ++ [line]) (net w) (files w) (clones w)
          (staged w) (commits w) (pushes w).

Definition add_net (rq : request) (w : world) : world :=
  mkWorld (stdout w) (net w ++ [rq]) (files w) (clones w)
          (staged w) (commits w) (pushes w).

Definition put_file (path content : string) (w : world) : world :=
  mkWorld (stdout w) (net w) (<[path := content]> (files w)) (clones w)
          (staged w) (commits w) (pushes w).

Definition add_clone (clone_url directory : string) (w : world) : world :=
  mkWorld (stdout w) (net w) (files w) (clones w ++ [(clone_url, directory)])
          (staged w) (commits w) (pushes w).

Definition add_staged (repo_dir path : string) (w : world) : world :=
  mkWorld (stdout w) (net w) (files w) (clones w)
          (staged w ++ [(repo_dir, path)]) (commits w) (pushes w).

Definition add_commit (repo_dir message : string) (w : world) : world :=
  mkWorld (stdout w) (net w) (files w) (clones w)
          (staged w) (commits w ++ [(repo_dir, message)]) (pushes w).

Definition add_push (repo_dir remote : string) (w : world) : world :=
  mkWorld (stdout w) (net w) (files w) (clones w)
          (staged w) (commits w) (pushes w ++ [(repo_dir, remote)]).

(** ** The monad of the script: state, exceptions and exit *)

Inductive outcome (A : Type) : Type :=
  | Returned (a : A)
  | Exited (code : Z)
  | Raised (e : exn).
Arguments Returned {A} a.
Arguments Exited {A} code.
Arguments Raised {A} e.

(** The exit status the shell sees: an uncaught exception prints a traceback
    and exits with status 1. *)
Definition exit_status {A} (o : outcome A) : Z :=
  match o with
  | Returned _ => 0
  | Exited code => code
  | Raised _ => 1
  end.

Definition M (A : Type) : Type := world -> outcome A * world.

Definition ret {A} (a : A) : M A := fun w => (Returned a, w).

Definition bind {A B} (m : M A) (k : A -> M B) : M B :=
  fun w =>
    match m w with
    | (Returned a, w') => k a w'
    | (Exited code, w') => (Exited code, w')
    | (Raised e, w') => (Raised e, w')
    end.

Notation "x <- m ;; k" := (bind m (fun x => k))
  (at level 100, m at next level, right associativity).
Notation "m ;; k" := (bind m (fun _ => k))
  (at level 100, right associativity).

Definition raise {A} (e : exn) : M A := fun w => (Raised e, w).

(** [sys.exit(code)] *)
Definition sys_exit {A} (code : Z) : M A := fun w => (Exited code, w).

(** [try: body except ...: handler]: [handler e] is [None] when no [except]
    clause matches [e]. *)
Definition try_except {A} (body : M A) (handler : exn -> option (M A)) : M A :=
  fun w =>
    match body w with
    | (Raised e, w') =>
        match handler e with
        | Some h => h w'
        | None => (Raised e, w')
        end
    | r => r
    end.

(** A [try] block whose first statement assigns a local variable that the
    handler reads: [try: x = first; rest(x) except ...: handler].  The
    handler gets [None] when [first] raised, that is when [x] is unbound. *)
Definition try_binding {L A} (first : M L) (rest : L -> M A)
    (handler : option L -> exn -> option (M A)) : M A :=
  fun w =>
    match first w with
    | (Returned x, w') => try_except (rest x) (handler (Some x)) w'
    | (Exited code, w') => (Exited code, w')
    | (Raised e, w') =>
        match handler None e with
        | Some h => h w'
        | None => (Raised e, w')
        end
    end.

(** [d[k]] *)
Definition subscript {V} (d : Dict.t V) (k : string) : M V :=
  match Dict.get d k with
  | Some v => ret v
  | None => raise (KeyError k)
  end.

Definition print (line : string) : M unit :=
  fun w => (Returned tt, add_stdout line w).

(** [with open(path, 'w') as f: f.write(content)], in a directory that
    exists: [main] writes into the directory it has just cloned. *)
Definition write_file (path content : string) : M unit :=
  fun w => (Returned tt, put_file path content w).

Definition send (rq : request) (answer : http_outcome) : M response :=
  fun w =>
    match answer with
    | HttpRaises e => (Raised (RequestException e), add_net rq w)
    | HttpReturns r => (Returned r, add_net rq w)
    end.

(** [response.raise_for_status()] *)
Definition raise_for_status (r : response) : M unit :=
  if is_error_status (status_code r)
  then raise (RequestException (mkRequestException (resp_http_error r) (Some r)))
  else ret tt.

(** [response.json()], of which the script reads two string members.  Its
    decode error is a [RequestException] (requests 2.27 and later) and
    carries no response. *)
Definition json (r : response) : M (Dict.t string) :=
  match resp_json r with
  | JsonDecodeError msg => raise (RequestException (mkRequestException msg None))
  | JsonObject members => ret members
  end.

(** [os.path.join(a, b)] for a relative [b]. *)
Definition os_path_join (a b : string) : string :=
  match a with
  | EmptyString => b
  | _ => if PyStr.endswith "/" a then a +:+ b else a +:+ "/" +:+ b
  end.

(** ** The script *)

(** The static templates of [add_gitignore], character for character: each
    starts with the line break that follows the opening quotes. *)
Definition python_gitignore : string := "
# Python
__pycache__/
*.py[cod]
*$py.class
*.so
.Python
env/
build/
develop-eggs/
dist/
downloads/
eggs/
.eggs/
lib/
lib64/
parts/
sdist/
var/
*.egg-info/
.installed.cfg
*.egg
.pytest_cache/
.coverage
htmlcov/
.tox/
.venv/
venv/
ENV/
".

Definition node_gitignore : string := "
# Node.js
node_modules/
npm-debug.log
yarn-debug.log
yarn-error.log
package-lock.json
.npm
.node_repl_history
.env
.env.test
.cache
.next
.nuxt
dist/
".

Definition java_gitignore : string := "
# Java
*.class
*.log
*.jar
*.war
*.ear
*.zip
*.tar.gz
*.rar
hs_err_pid*
.mtj.tmp/
target/
.idea/
*.iml
.classpath
.project
.settings/
bin/
".

Definition basic_gitignores : Dict.t string :=
  [("Python", python_gitignore); ("Node", node_gitignore); ("Java", java_gitignore)].

Definition default_gitignore : string := "
# IDE files
.idea/
.vscode/
*.swp
*.swo
*~

# OS files
.DS_Store
Thumbs.db
".

(** The command line, as [parse_arguments] returns it. *)
Record args : Type := mkArgs {
  arg_config : string;
  arg_directory : option string;
  arg_verbose : bool
}.

(** The request body of [create_github_repo]: [name] and [private] are set
    by the dict literal, the other five only when the configuration has
    them. *)
Definition copy_if_present (config : dict) (key : string) (repo_data : dict) : dict :=
  match Dict.get config key with
  | Some v => Dict.set repo_data key v
  | None => repo_data
  end.

Definition build_repo_data (config : dict) (repo_name : value) : dict :=
  let repo_data :=
    [("name", repo_name);
     ("private", Dict.get_default config "private" (VBool false))] in
  let repo_data := copy_if_present config "description" repo_data in
  let repo_data := copy_if_present config "homepage" repo_data in
  let repo_data := copy_if_present config "has_wiki" repo_data in
  let repo_data := copy_if_present config "has_issues" repo_data in
  let repo_data := copy_if_present config "auto_init" repo_data in
  repo_data.

Definition api_url : string := "https://api.github.com/user/repos".

Definition build_headers (token : value) : Dict.t string :=
  [("Authorization", "token " +:+ py_str token);
   ("Accept", "application/vnd.github.v3+json")].

(** [clone_url.split('/')[-1].replace('.git', '')] *)
Definition default_directory (clone_url : string) : string :=
  PyStr.replace ".git" "" (PyStr.last_item (PyStr.split "/" clone_url)).

(** [not directory]: [None] and the empty string are false. *)
Definition not_directory (directory : option string) : bool :=
  match directory with
  | None => true
  | Some EmptyString => true
  | Some (String _ _) => false
  end.

(** The directory [clone_repo] clones into. *)
Definition target_directory (directory : option string) (clone_url : string) : string :=
  if not_directory directory then default_directory clone_url
  else default EmptyString directory.

(** [basic_gitignores.get(gitignore_type, default_gitignore)]: only a string
    can be equal to a key of the table. *)
Definition basic_content (gitignore_type : value) : string :=
  match gitignore_type with
  | VStr name => Dict.get_default basic_gitignores name default_gitignore
  | _ => default_gitignore
  end.

Definition mask : string := PyStr.repeat "*" 10.

Section Script.

Variable E : env.

(** [open(config_path)] followed by [yaml.safe_load]. *)
Definition safe_load (config_path : string) : M dict :=
  match env_file E with
  | FileMissing msg => raise (FileNotFoundError msg)
  | FileMalformed msg => raise (YAMLError msg)
  | FileParsed config => ret config
  end.

Fixpoint validate (required_fields : list string) (config : dict) : M unit :=
  match required_fields with
  | [] => ret tt
  | field :: rest =>
      if negb (Dict.mem config field)
      then raise (ValueError ("Missing required field in config: " +:+ field))
      else validate rest config
  end.

Definition load_config (config_path : string) : M dict :=
  try_except
    (config <- safe_load config_path ;;
     validate ["github_token"; "repo_name"] config ;;
     ret config)
    (fun e =>
       match e with
       | FileNotFoundError _ =>
           Some (print ("Error: Config file '" +:+ config_path +:+ "' not found.") ;;
                 sys_exit 1)
       | YAMLError msg =>
           Some (print ("Error parsing YAML config: " +:+ msg) ;;
                 sys_exit 1)
       | _ => None
       end).

(** The [except requests.exceptions.RequestException as e] clause of
    [create_github_repo].  [response] is the local variable of that name:
    [None] while [requests.post] has not returned, so that reading it
    raises [UnboundLocalError]. *)
Definition on_request_exception (repo_name : value) (response : option response)
    (e : exn) : option (M string) :=
  match e with
  | RequestException ex =>
      Some
        match response with
        | None => raise (UnboundLocalError "response")
        | Some r =>
            (if status_code r =? 422
             then print ("Error: Repository '" +:+ py_str repo_name +:+ "' may already exist.")
             else
               print ("Error creating repository: " +:+ exc_msg ex) ;;
               match exc_response ex with
               | Some er =>
                   if resp_ok er then print ("Response: " +:+ text er) else ret tt
               | None => ret tt
               end) ;;
            sys_exit 1
        end
  | _ => None
  end.

Definition create_github_repo (config : dict) : M string :=
  token <- subscript config "github_token" ;;
  repo_name <- subscript config "repo_name" ;;
  let url := api_url in
  let headers := build_headers token in
  let repo_data := build_repo_data config repo_name in
  print ("Creating GitHub repository: " +:+ py_str repo_name +:+ "...") ;;
  try_binding
    (send (POST url headers repo_data) (env_post E))
    (fun response =>
       raise_for_status response ;;
       result <- json response ;;
       html_url <- subscript result "html_url" ;;
       print ("Repository created successfully: " +:+ html_url) ;;
       subscript result "clone_url")
    (on_request_exception repo_name).

(** [git.Repo.clone_from(clone_url, directory)] *)
Definition clone_from (clone_url directory : string) : M unit :=
  fun w =>
    match env_clone E with
    | Some msg => (Raised (GitCommandError msg), w)
    | None => (Returned tt, add_clone clone_url directory w)
    end.

Definition clone_repo (clone_url : string) (directory : option string) : M string :=
  let directory := target_directory directory clone_url in
  print ("Cloning repository to " +:+ directory +:+ "...") ;;
  try_except
    (clone_from clone_url directory ;;
     print ("Repository cloned successfully to " +:+ directory) ;;
     ret directory)
    (fun e =>
       match e with
       | GitCommandError msg =>
           Some (print ("Error cloning repository: " +:+ msg) ;; sys_exit 1)
       | _ => None
       end).

(** [repo.git.add(path)], [repo.git.commit('-m', message)] and
    [repo.remote(remote).push()] on the repository at [repo_dir]. *)
Definition git_add (repo_dir path : string) : M unit :=
  fun w =>
    match env_add E with
    | Some msg => (Raised (GitCommandError msg), w)
    | None => (Returned tt, add_staged repo_dir path w)
    end.

Definition git_commit (repo_dir message : string) : M unit :=
  fun w =>
    match env_commit E with
    | Some msg => (Raised (GitCommandError msg), w)
    | None => (Returned tt, add_commit repo_dir message w)
    end.

Definition git_push (repo_dir remote : string) : M unit :=
  fun w =>
    match env_push E with
    | Some msg => (Raised (GitCommandError msg), w)
    | None => (Returned tt, add_push repo_dir remote w)
    end.

Definition gitignore_url (gitignore_type : value) : string :=
  "https://raw.githubusercontent.com/github/gitignore/main/"
    +:+ py_str gitignore_type +:+ ".gitignore".

Definition add_gitignore (repo_dir : string) (gitignore_type : value) : M unit :=
  print ("Adding .gitignore file for " +:+ py_str gitignore_type +:+ "...") ;;
  let github_gitignore_url := gitignore_url gitignore_type in
  response <- send (GET github_gitignore_url) (env_get E) ;;
  let gitignore_path := os_path_join repo_dir ".gitignore" in
  (if status_code response =? 200
   then
     write_file gitignore_path (text response) ;;
     print ("Added .gitignore file for " +:+ py_str gitignore_type)
   else
     print ("Could not find gitignore template for " +:+ py_str gitignore_type +:+ ".") ;;
     print "Creating a basic .gitignore file instead." ;;
     let content := basic_content gitignore_type in
     write_file gitignore_path content ;;
     print "Created a basic .gitignore file") ;;
  try_except
    (git_add repo_dir ".gitignore" ;;
     git_commit repo_dir "Add .gitignore file" ;;
     git_push repo_dir "origin" ;;
     print "Committed and pushed .gitignore file")
    (fun e =>
       match e with
       | GitCommandError msg => Some (print ("Error committing .gitignore: " +:+ msg))
       | _ => None
       end).

(** The loop of [main] under [--verbose], over [config.items()]. *)
Fixpoint echo_items (items : dict) : M unit :=
  match items with
  | [] => ret tt
  | (key, v) :: rest =>
      (if String.eqb key "github_token"
       then print ("  github_token: " +:+ mask)
       else print ("  " +:+ key +:+ ": " +:+ py_str v)) ;;
      echo_items rest
  end.

Definition echo_config (config : dict) : M unit :=
  print "Configuration loaded:" ;;
  echo_items config.

Definition main (a : args) : M unit :=
  config <- load_config (arg_config a) ;;
  (if arg_verbose a then echo_config config else ret tt) ;;
  clone_url <- create_github_repo config ;;
  repo_dir <- clone_repo clone_url (arg_directory a) ;;
  (if Dict.mem config "gitignore_type"
   then
     gitignore_type <- subscript config "gitignore_type" ;;
     add_gitignore repo_dir gitignore_type
   else ret tt) ;;
  print "
Repository setup completed successfully!" ;;
  print ("You can now work with your repo at: " +:+ env_abspath E repo_dir).

End Script.

(** ** What the specification's sentences say, as predicates *)

(** A configuration that holds the two required keys and nothing else. *)
Definition only_required_keys (config : dict) : Prop :=
  forall k, In k (Dict.keys config) <-> (k = "github_token" \/ k = "repo_name").

Definition optional_keys : list string :=
  ["private"; "description"; "homepage"; "has_wiki"; "has_issues"; "auto_init"].

Definition no_optional_keys (body : dict) : Prop :=
  forall k, In k optional_keys -> Dict.get body k = None.

(** The specification's wording of the default clone directory: the part of
    the URL after its last slash, without a [.git] at its end. *)
Definition spec_directory (clone_url : string) : string :=
  let segment := PyStr.last_item (PyStr.split "/" clone_url) in
  if PyStr.endswith ".git" segment then PyStr.drop_last 4 segment else segment.

(** Two configurations with the same keys in the same order and the same
    value under every key but [github_token]. *)
Definition same_but_token (c1 c2 : dict) : Prop :=
  Forall2 (fun kv1 kv2 =>
             fst kv1 = fst kv2 /\ (fst kv1 <> "github_token" -> snd kv1 = snd kv2))
          c1 c2.

(** The clone URL of a run whose creation request succeeds: the response
    has no error status and its JSON object has the two members the script
    reads. *)
Definition created_clone_url (E : env) : option string :=
  match env_post E with
  | HttpRaises _ => None
  | HttpReturns r =>
      if is_error_status (status_code r) then None
      else
        match resp_json r with
        | JsonDecodeError _ => None
        | JsonObject result =>
            match Dict.get result "html_url" with
            | None => None
            | Some _ => Dict.get result "clone_url"
            end
        end
  end.

(** The configuration of a run whose configuration file loads. *)
Definition loaded_config (E : env) : option dict :=
  match env_file E with
  | FileParsed config =>
      if Dict.mem config "github_token" && Dict.mem config "repo_name"
      then Some config else None
  | _ => None
  end.

(** The error of the first of [git add], [git commit] and [git push] that
    fails, if one does. *)
Definition git_failure (E : env) : option string :=
  match env_add E with
  | Some msg => Some msg
  | None =>
      match env_commit E with
      | Some msg => Some msg
      | None => env_push E
      end
  end.

(** [w'] is [w] after some printing and nothing else. *)
Definition only_printed (w w' : world) : Prop :=
  (exists lines, stdout w' = stdout w ++ lines) /\
  net w' = net w /\ files w' = files w /\ clones w' = clones w /\
  staged w' = staged w /\ commits w' = commits w /\ pushes w' = pushes w.

(** [w'] is [w] with nothing of what the ignore-file step does: no file
    written, no GET sent, nothing staged, committed or pushed. *)
Definition seeder_idle (w w' : world) : Prop :=
  files w' = files w /\
  List.filter is_get (net w') = List.filter is_get (net w) /\
  staged w' = staged w /\ commits w' = commits w /\ pushes w' = pushes w.

(** The two lines every completed run ends with. *)
Definition completion_lines (E : env) (repo_dir : string) : list string :=
  ["
Repository setup completed successfully!";
   "You can now work with your repo at: " +:+ env_abspath E repo_dir].

(** A request without its headers, and a world whose requests are shown
    without theirs: all of a run but the [Authorization] and [Accept]
    headers it sent. *)
Definition without_headers (rq : request) : request :=
  match rq with
  | POST url _ body => POST url [] body
  | GET url => GET url
  end.

Definition hide_headers (w : world) : world :=
  mkWorld (stdout w) (map without_headers (net w)) (files w) (clones w)
          (staged w) (commits w) (pushes w).

(** Two environments in which every call but the reading of the
    configuration file answers the same. *)
Definition same_answers (E1 E2 : env) : Prop :=
  env_post E1 = env_post E2 /\ env_clone E1 = env_clone E2 /\
  env_get E1 = env_get E2 /\ env_add E1 = env_add E2 /\
  env_commit E1 = env_commit E2 /\ env_push E1 = env_push E2 /\
  (forall path, env_abspath E1 path = env_abspath E2 path).

(** Two runs that end alike and differ at most in the headers sent. *)
Definition same_run {A} (r1 r2 : outcome A * world) : Prop :=
  fst r1 = fst r2 /\ hide_headers (snd r1) = hide_headers (snd r2).

(** ** Sample inputs *)

Module Sample.

Definition world0 : world := mkWorld [] [] ∅ [] [] [] [].

Definition minimal : dict :=
  [("github_token", VStr "ghp_0123456789"); ("repo_name", VStr "demo")].

Definition with_python : dict :=
  [("github_token", VStr "ghp_0123456789"); ("repo_name", VStr "demo");
   ("gitignore_type", VStr "Python")].

Definition with_unknown : dict :=
  [("github_token", VStr "ghp_0123456789"); ("repo_name", VStr "demo");
   ("gitignore_type", VStr "NoSuchLanguage")].

Definition with_other_token : dict :=
  [("github_token", VStr "ghp_9876543210"); ("repo_name", VStr "demo");
   ("gitignore_type", VStr "Python")].

Definition no_name : dict := [("github_token", VStr "ghp_0123456789")].

Definition created : response :=
  mkResponse 201 "{...}" ""
    (JsonObject [("html_url", "https://github.com/octocat/demo");
                 ("clone_url", "https://github.com/octocat/demo.git")]).

Definition unprocessable : response :=
  mkResponse 422 "{...}"
    "422 Client Error: Unprocessable Entity for url: https://api.github.com/user/repos"
    (JsonObject []).

Definition unauthorized : response :=
  mkResponse 401 "{...}"
    "401 Client Error: Unauthorized for url: https://api.github.com/user/repos"
    (JsonObject []).

Definition not_found : response :=
  mkResponse 404 "404: Not Found" "" (JsonDecodeError "Expecting value").

Definition template : response :=
  mkResponse 200 "*.pyc" "" (JsonDecodeError "Expecting value").

Definition dns_failure : request_exception :=
  mkRequestException "Failed to resolve 'api.github.com'" None.

Definition abspath (path : string) : string := "/home/octocat/" +:+ path.

(** Every call succeeds; the template is not found remotely. *)
Definition env_ok (config : dict) : env :=
  mkEnv (FileParsed config) (HttpReturns created) None (HttpReturns not_found)
        None None None abspath.

Definition env_fetched (config : dict) : env :=
  mkEnv (FileParsed config) (HttpReturns created) None (HttpReturns template)
        None None None abspath.

Definition env_conflict (config : dict) : env :=
  mkEnv (FileParsed config) (HttpReturns unprocessable) None (HttpReturns not_found)
        None None None abspath.

Definition env_offline (config : dict) : env :=
  mkEnv (FileParsed config) (HttpRaises dns_failure) None (HttpReturns not_found)
        None None None abspath.

Definition env_push_rejected (config : dict) : env :=
  mkEnv (FileParsed config) (HttpReturns created) None (HttpReturns not_found)
        None None (Some "push rejected") abspath.

Definition cli : args := mkArgs "github_config.yml" None false.

Definition env_unauthorized (config : dict) : env :=
  mkEnv (FileParsed config) (HttpReturns unauthorized) None (HttpReturns not_found)
        None None None abspath.

Definition env_clone_fails (config : dict) : env :=
  mkEnv (FileParsed config) (HttpReturns created)
        (Some "destination path 'demo' already exists") (HttpReturns not_found)
        None None None abspath.

Definition env_fetch_raises (config : dict) : env :=
  mkEnv (FileParsed config) (HttpReturns created) None (HttpRaises dns_failure)
        None None None abspath.

Definition env_malformed (msg : string) : env :=
  mkEnv (FileMalformed msg) (HttpReturns created) None (HttpReturns not_found)
        None None None abspath.

Definition pages_url : string := "https://github.com/octocat/octocat.github.io.git".

End Sample.

(** ** Dictionaries *)

Lemma dict_get_some_in {V} (d : Dict.t V) k v :
  Dict.get d k = Some v -> In k (Dict.keys d).
Proof.
  induction d as [|[k' v'] d IH]; simpl; [discriminate|].
  destruct (String.eqb_spec k' k) as [->|Hne]; intros H.
  - now left.
  - right. now apply IH.
Qed.

Lemma dict_in_get_some {V} (d : Dict.t V) k :
  In k (Dict.keys d) -> exists v, Dict.get d k = Some v.
Proof.
  induction d as [|[k' v'] d IH]; simpl; [tauto|].
  intros [->|Hin].
  - rewrite String.eqb_refl. eauto.
  - destruct (String.eqb k' k); eauto.
Qed.

Lemma dict_get_none_not_in {V} (d : Dict.t V) k :
  ~ In k (Dict.keys d) -> Dict.get d k = None.
Proof.
  intros Hnot. destruct (Dict.get d k) eqn:Hget; [|reflexivity].
  exfalso. eauto using dict_get_some_in.
Qed.

Lemma dict_mem_get {V} (d : Dict.t V) k :
  Dict.mem d k = true <-> exists v, Dict.get d k = Some v.
Proof.
  unfold Dict.mem. destruct (Dict.get d k); split; eauto; try discriminate.
  intros [v Hv]. discriminate.
Qed.

Lemma same_but_token_get c1 c2 k :
  same_but_token c1 c2 -> k <> "github_token" -> Dict.get c1 k = Dict.get c2 k.
Proof.
  intros Hsame Hk. induction Hsame as [|[k1 v1] [k2 v2] c1 c2 [Hkey Hval] _ IH]; [reflexivity|].
  simpl in *. subst k2. destruct (String.eqb_spec k1 k) as [->|_]; [|exact IH].
  now rewrite Hval.
Qed.

Lemma same_but_token_mem c1 c2 k :
  same_but_token c1 c2 -> Dict.mem c1 k = Dict.mem c2 k.
Proof.
  unfold Dict.mem.
  intros Hsame. induction Hsame as [|[k1 v1] [k2 v2] c1 c2 [Hkey Hval] _ IH]; [reflexivity|].
  simpl in *. subst k2. now destruct (String.eqb k1 k).
Qed.

(** ** The script on sample inputs *)

Example run_with_unreachable_template :
  main (Sample.env_ok Sample.with_python) (mkArgs "github_config.yml" None true)
       Sample.world0
  = (Returned tt,
     mkWorld
       ["Configuration loaded:";
        "  github_token: **********";
        "  repo_name: demo";
        "  gitignore_type: Python";
        "Creating GitHub repository: demo...";
        "Repository created successfully: https://github.com/octocat/demo";
        "Cloning repository to demo...";
        "Repository cloned successfully to demo";
        "Adding .gitignore file for Python...";
        "Could not find gitignore template for Python.";
        "Creating a basic .gitignore file instead.";
        "Created a basic .gitignore file";
        "Committed and pushed .gitignore file";
        "
Repository setup completed successfully!";
        "You can now work with your repo at: /home/octocat/demo"]
       [POST "https://api.github.com/user/repos"
             [("Authorization", "token ghp_0123456789");
              ("Accept", "application/vnd.github.v3+json")]
             [("name", VStr "demo"); ("private", VBool false)];
        GET "https://raw.githubusercontent.com/github/gitignore/main/Python.gitignore"]
       {["demo/.gitignore" := python_gitignore]}
       [("https://github.com/octocat/demo.git", "demo")]
       [("demo", ".gitignore")]
       [("demo", "Add .gitignore file")]
       [("demo", "origin")]).
Proof. reflexivity. Qed.

Example run_with_fetched_template :
  files (snd (main (Sample.env_fetched Sample.with_python) Sample.cli Sample.world0))
  = {["demo/.gitignore" := "*.pyc"]}.
Proof. reflexivity. Qed.

Example run_with_missing_file :
  main (mkEnv (FileMissing "No such file or directory") (HttpReturns Sample.created) None
              (HttpReturns Sample.not_found) None None None Sample.abspath)
       Sample.cli Sample.world0
  = (Exited 1, add_stdout "Error: Config file 'github_config.yml' not found." Sample.world0).
Proof. reflexivity. Qed.

Example run_into_explicit_directory :
  clones (snd (main (Sample.env_ok Sample.minimal)
                    (mkArgs "github_config.yml" (Some "work/copy") false) Sample.world0))
  = [("https://github.com/octocat/demo.git", "work/copy")].
Proof. reflexivity. Qed.

Example body_with_optional_fields :
  build_repo_data
    [("github_token", VStr "t"); ("repo_name", VStr "demo"); ("auto_init", VBool true);
     ("private", VBool true); ("description", VStr "A demo")]
    (VStr "demo")
  = [("name", VStr "demo"); ("private", VBool true); ("description", VStr "A demo");
     ("auto_init", VBool true)].
Proof. reflexivity. Qed.

(** ** Running the script: the stages of [main] *)

(** Case analysis on the innermost [match] of the goal. *)
Ltac break_inner :=
  match goal with
  | |- context [match ?x with _ => _ end] =>
      lazymatch x with
      | context [match _ with _ => _ end] => fail
      | _ => first [ is_var x; destruct x | destruct x eqn:? ]
      end
  end.

Ltac unfold_monad :=
  unfold subscript, bind, try_binding, try_except, send, raise_for_status, json,
    print, write_file, ret, raise, sys_exit in *.

Lemma only_printed_refl w : only_printed w w.
Proof. unfold only_printed. repeat split; try reflexivity. exists []. now rewrite app_nil_r. Qed.

Lemma echo_items_prints config w :
  exists w', echo_items config w = (Returned tt, w') /\ only_printed w w'.
Proof.
  revert w. induction config as [|[key v] rest IH]; intros w; simpl.
  - exists w. split; [reflexivity | apply only_printed_refl].
  - unfold bind, print.
    destruct (String.eqb key "github_token");
      match goal with
      | |- context [echo_items rest ?w1] =>
          destruct (IH w1) as (w' & Hrun & Hframe); exists w'; rewrite Hrun;
          split; [reflexivity|]
      end;
      destruct Hframe as ([lines Hout] & Hrest); simpl in *;
      (split; [eexists; rewrite Hout, <- app_assoc; reflexivity | exact Hrest]).
Qed.

Lemma verbose_stage (verbose : bool) config w :
  exists w', (if verbose then echo_config config else ret tt) w = (Returned tt, w')
             /\ only_printed w w'.
Proof.
  destruct verbose.
  - unfold echo_config, bind, print.
    destruct (echo_items_prints config (add_stdout "Configuration loaded:" w))
      as (w' & Hrun & ([lines Hout] & Hrest)).
    exists w'. rewrite Hrun. split; [reflexivity|]. simpl in *.
    split; [eexists; rewrite Hout, <- app_assoc; reflexivity | exact Hrest].
  - exists w. split; [reflexivity | apply only_printed_refl].
Qed.

Lemma loaded_config_inv E config :
  loaded_config E = Some config ->
  env_file E = FileParsed config /\
  (exists token, Dict.get config "github_token" = Some token) /\
  (exists name, Dict.get config "repo_name" = Some name).
Proof.
  unfold loaded_config. destruct (env_file E) as [| |c]; try discriminate.
  destruct (Dict.mem c "github_token") eqn:Ht; [|discriminate].
  destruct (Dict.mem c "repo_name") eqn:Hn; [|discriminate].
  simpl. intros [= ->]. split; [reflexivity|]. split; now apply dict_mem_get.
Qed.

Lemma load_config_loaded E path config w :
  loaded_config E = Some config -> load_config E path w = (Returned config, w).
Proof.
  intros Hload. destruct (loaded_config_inv _ _ Hload) as (Hfile & [t Ht] & [n Hn]).
  unfold load_config, safe_load, validate, Dict.mem. unfold_monad.
  now rewrite Hfile, Ht, Hn.
Qed.

Lemma create_github_repo_created E config w token name clone_url :
  Dict.get config "github_token" = Some token ->
  Dict.get config "repo_name" = Some name ->
  created_clone_url E = Some clone_url ->
  exists html_url,
    create_github_repo E config w
    = (Returned clone_url,
       add_stdout ("Repository created successfully: " +:+ html_url)
         (add_net (POST api_url (build_headers token) (build_repo_data config name))
            (add_stdout ("Creating GitHub repository: " +:+ py_str name +:+ "...") w))).
Proof.
  intros Ht Hn. unfold created_clone_url.
  destruct (env_post E) as [ex|r] eqn:Hpost; [discriminate|].
  destruct (is_error_status (status_code r)) eqn:Hstatus; [discriminate|].
  destruct (resp_json r) as [msg|result] eqn:Hjson; [discriminate|].
  destruct (Dict.get result "html_url") as [html_url|] eqn:Hhtml; [|discriminate].
  intros Hclone. exists html_url.
  unfold create_github_repo. unfold_monad.
  now rewrite Ht, Hn, Hpost, Hstatus, Hjson, Hhtml, Hclone.
Qed.

Lemma clone_repo_cloned E clone_url directory w :
  env_clone E = None ->
  let repo_dir := target_directory directory clone_url in
  clone_repo E clone_url directory w
  = (Returned repo_dir,
     add_stdout ("Repository cloned successfully to " +:+ repo_dir)
       (add_clone clone_url repo_dir
          (add_stdout ("Cloning repository to " +:+ repo_dir +:+ "...") w))).
Proof.
  intros Hclone. unfold clone_repo, clone_from. unfold_monad. now rewrite Hclone.
Qed.

(** ** The request body (C1) *)

Lemma create_github_repo_sends E config w token name :
  Dict.get config "github_token" = Some token ->
  Dict.get config "repo_name" = Some name ->
  net (snd (create_github_repo E config w))
  = net w ++ [POST api_url (build_headers token) (build_repo_data config name)].
Proof.
  intros Ht Hn. unfold create_github_repo, on_request_exception. unfold_monad.
  rewrite Ht, Hn.
  repeat (cbn beta iota delta [fst snd net add_stdout add_net]; break_inner); reflexivity.
Qed.

Lemma only_required_keys_absent config k :
  only_required_keys config -> k <> "github_token" -> k <> "repo_name" ->
  Dict.get config k = None.
Proof.
  intros Honly Ht Hn. apply dict_get_none_not_in. intros Hin.
  apply Honly in Hin. tauto.
Qed.

(** C1, as the specification states it, fails on the smallest
    configuration: the body that [create_github_repo] posts for it has the
    optional key [private]. *)
Lemma C1_private_sent_by_default :
  only_required_keys Sample.minimal /\
  (exists headers body,
      net (snd (create_github_repo (Sample.env_ok Sample.minimal) Sample.minimal
                                   Sample.world0))
      = [POST api_url headers body] /\
      Dict.get body "private" = Some (VBool false) /\
      ~ no_optional_keys body).
Proof.
  split.
  - intros k. simpl. intuition congruence.
  - eexists _, _. split; [reflexivity|]. split; [reflexivity|].
    intros Hnone. specialize (Hnone "private"). simpl in Hnone.
    discriminate Hnone. now left.
Qed.

(** C1 (amended): for every configuration that holds only [github_token]
    and [repo_name], the one request [create_github_repo] sends has exactly
    the body [name], [private: false]; none of [description], [homepage],
    [has_wiki], [has_issues], [auto_init] is in it. *)
Theorem C1_body_of_required_only E config w :
  only_required_keys config ->
  exists token name,
    Dict.get config "github_token" = Some token /\
    Dict.get config "repo_name" = Some name /\
    net (snd (create_github_repo E config w))
    = net w ++ [POST api_url (build_headers token)
                     [("name", name); ("private", VBool false)]] /\
    (forall k, In k ["description"; "homepage"; "has_wiki"; "has_issues"; "auto_init"] ->
               Dict.get (build_repo_data config name) k = None).
Proof.
  intros Honly.
  destruct (dict_in_get_some config "github_token") as [token Ht];
    [apply Honly; now left|].
  destruct (dict_in_get_some config "repo_name") as [name Hn];
    [apply Honly; now right|].
  assert (Hbody : build_repo_data config name = [("name", name); ("private", VBool false)]).
  { unfold build_repo_data, copy_if_present, Dict.get_default.
    rewrite !(only_required_keys_absent config) by (assumption || discriminate).
    reflexivity. }
  exists token, name. repeat split; try assumption.
  - rewrite (create_github_repo_sends E config w token name Ht Hn). now rewrite Hbody.
  - rewrite Hbody. simpl. intros k Hk.
    repeat (destruct Hk as [<-|Hk]; [reflexivity|]). destruct Hk.
Qed.

Lemma C1_body_of_required_only_witness :
  only_required_keys Sample.minimal /\
  exists token name,
    Dict.get Sample.minimal "github_token" = Some token /\
    Dict.get Sample.minimal "repo_name" = Some name /\
    net (snd (create_github_repo (Sample.env_ok Sample.minimal) Sample.minimal Sample.world0))
    = net Sample.world0 ++ [POST api_url (build_headers token)
                     [("name", name); ("private", VBool false)]] /\
    (forall k, In k ["description"; "homepage"; "has_wiki"; "has_issues"; "auto_init"] ->
               Dict.get (build_repo_data Sample.minimal name) k = None).
Proof.
  assert (H : only_required_keys Sample.minimal).
  { intros k. simpl. intuition congruence. }
  split; [exact H|].
  exact (C1_body_of_required_only (Sample.env_ok Sample.minimal) Sample.minimal
           Sample.world0 H).
Defined.

(** ** The default clone directory (C2) *)

Lemma occurs_empty s : PyStr.occurs "" s = true.
Proof. now destruct s. Qed.

(** Where [.git] occurs nowhere in a string, [replace] leaves it as it is. *)
Lemma replace_absent old new s :
  PyStr.occurs old s = false -> PyStr.replace old new s = s.
Proof.
  destruct old as [|c old']; [now rewrite occurs_empty|].
  unfold PyStr.replace. induction s as [|a s IH]; [reflexivity|].
  cbn [PyStr.occurs PyStr.replace_go]. intros H.
  apply orb_false_iff in H as [Hhere Hlater].
  now rewrite Hhere, IH.
Qed.

Lemma startswith_git_suffix_irrelevant a seg :
  PyStr.startswith ".git" (String a (seg +:+ ".gi")) = false ->
  PyStr.startswith ".git" (String a (seg +:+ ".git")) = false.
Proof.
  destruct seg as [|b [|c [|d rest]]]; cbn;
    repeat match goal with
           | |- context [Ascii.eqb ?x ?y] => destruct (Ascii.eqb x y)
           end; auto.
Qed.

(** Where the only [.git] of a path segment is its suffix, the code strips
    that suffix, as the specification says. *)
Lemma replace_git_suffix seg :
  PyStr.occurs ".git" (seg +:+ ".gi") = false ->
  PyStr.replace ".git" "" (seg +:+ ".git") = seg.
Proof.
  unfold PyStr.replace. induction seg as [|a seg IH]; [reflexivity|].
  intros H. change (String a seg +:+ ".gi") with (String a (seg +:+ ".gi")) in H.
  cbn [PyStr.occurs] in H. apply orb_false_iff in H as [Hhere Hlater].
  change (String a seg +:+ ".git") with (String a (seg +:+ ".git")).
  cbn [PyStr.replace_go].
  rewrite (startswith_git_suffix_irrelevant a seg Hhere).
  now rewrite IH.
Qed.

Lemma default_directory_of_suffixed clone_url seg :
  PyStr.last_item (PyStr.split "/" clone_url) = seg +:+ ".git" ->
  PyStr.occurs ".git" (seg +:+ ".gi") = false ->
  default_directory clone_url = seg.
Proof.
  intros Hlast Hocc. unfold default_directory. rewrite Hlast.
  now apply replace_git_suffix.
Qed.

Example default_directory_plain :
  default_directory "https://github.com/octocat/demo.git" = "demo".
Proof. reflexivity. Qed.

Example default_directory_agrees_on_plain :
  spec_directory "https://github.com/octocat/demo.git" = "demo".
Proof. reflexivity. Qed.

(** C2: on the clone URL of a GitHub Pages repository, whose name holds
    [.git] before its end, [clone_repo] without a directory clones into
    [octocathub.io]: [replace] removes every [.git], while the final path
    segment without its [.git] suffix is [octocat.github.io]. *)
Theorem C2_replace_removes_every_git :
  default_directory Sample.pages_url = "octocathub.io" /\
  spec_directory Sample.pages_url = "octocat.github.io" /\
  clone_repo (Sample.env_ok Sample.minimal) Sample.pages_url None Sample.world0
  = (Returned "octocathub.io",
     add_stdout "Repository cloned successfully to octocathub.io"
       (add_clone Sample.pages_url "octocathub.io"
          (add_stdout "Cloning repository to octocathub.io..." Sample.world0))).
Proof. repeat split; reflexivity. Qed.

(** ** Failures of the creation request (C3, C4) *)

(** C3: when [requests.post] raises, so that no response exists, the error
    branch of [create_github_repo] reads the unbound local [response]: the
    function raises [UnboundLocalError], having printed nothing but its
    opening line, and never reaches [sys.exit]. *)
Theorem C3_no_response_is_unhandled E config w token name ex :
  Dict.get config "github_token" = Some token ->
  Dict.get config "repo_name" = Some name ->
  env_post E = HttpRaises ex ->
  create_github_repo E config w
  = (Raised (UnboundLocalError "response"),
     add_net (POST api_url (build_headers token) (build_repo_data config name))
       (add_stdout ("Creating GitHub repository: " +:+ py_str name +:+ "...") w)).
Proof.
  intros Ht Hn Hpost. unfold create_github_repo, on_request_exception. unfold_monad.
  now rewrite Ht, Hn, Hpost.
Qed.

Lemma C3_no_response_is_unhandled_witness :
  create_github_repo (Sample.env_offline Sample.minimal) Sample.minimal Sample.world0
  = (Raised (UnboundLocalError "response"),
     add_net (POST api_url (build_headers (VStr "ghp_0123456789"))
                   (build_repo_data Sample.minimal (VStr "demo")))
       (add_stdout ("Creating GitHub repository: " +:+ py_str (VStr "demo") +:+ "...")
                   Sample.world0)).
Proof.
  apply (C3_no_response_is_unhandled (Sample.env_offline Sample.minimal) Sample.minimal
           Sample.world0 (VStr "ghp_0123456789") (VStr "demo") Sample.dns_failure);
    reflexivity.
Defined.

Lemma create_github_repo_http_error E config w token name r :
  Dict.get config "github_token" = Some token ->
  Dict.get config "repo_name" = Some name ->
  env_post E = HttpReturns r ->
  is_error_status (status_code r) = true ->
  create_github_repo E config w
  = (Exited 1,
     add_stdout
       (if status_code r =? 422
        then "Error: Repository '" +:+ py_str name +:+ "' may already exist."
        else "Error creating repository: " +:+ resp_http_error r)
       (add_net (POST api_url (build_headers token) (build_repo_data config name))
          (add_stdout ("Creating GitHub repository: " +:+ py_str name +:+ "...") w))).
Proof.
  intros Ht Hn Hpost Herr. unfold create_github_repo, on_request_exception. unfold_monad.
  rewrite Ht, Hn, Hpost. cbn. rewrite Herr. cbn.
  destruct (status_code r =? 422); [reflexivity|].
  cbn. unfold resp_ok. now rewrite Herr.
Qed.

(** C4: in a run whose configuration loads and whose creation request is
    answered with status 422, the last line printed says that the
    repository may already exist, the process exits with status 1, and
    nothing is cloned. *)
Theorem C4_conflict_exits_before_clone E a w config r :
  loaded_config E = Some config ->
  env_post E = HttpReturns r ->
  status_code r = 422 ->
  exists name,
    Dict.get config "repo_name" = Some name /\
    fst (main E a w) = Exited 1 /\
    exit_status (fst (main E a w)) <> 0 /\
    List.last (stdout (snd (main E a w))) ""
    = "Error: Repository '" +:+ py_str name +:+ "' may already exist." /\
    clones (snd (main E a w)) = clones w.
Proof.
  intros Hload Hpost Hstatus.
  destruct (loaded_config_inv _ _ Hload) as (_ & [token Ht] & [name Hn]).
  exists name. split; [exact Hn|].
  destruct (verbose_stage (arg_verbose a) config w) as (w1 & Hecho & Hframe).
  assert (Hmain : main E a w
                  = (Exited 1,
                     add_stdout
                       ("Error: Repository '" +:+ py_str name +:+ "' may already exist.")
                       (add_net (POST api_url (build_headers token)
                                      (build_repo_data config name))
                          (add_stdout
                             ("Creating GitHub repository: " +:+ py_str name +:+ "...")
                             w1)))).
  { unfold main, bind.
    rewrite (load_config_loaded _ _ _ _ Hload), Hecho.
    rewrite (create_github_repo_http_error E config w1 token name r Ht Hn Hpost)
      by now rewrite Hstatus.
    now rewrite Hstatus. }
  rewrite Hmain. cbn.
  repeat split; try discriminate.
  - now rewrite last_last.
  - apply Hframe.
Qed.

Lemma C4_conflict_exits_before_clone_witness :
  exists name,
    Dict.get Sample.minimal "repo_name" = Some name /\
    fst (main (Sample.env_conflict Sample.minimal) Sample.cli Sample.world0) = Exited 1 /\
    exit_status (fst (main (Sample.env_conflict Sample.minimal) Sample.cli Sample.world0)) <> 0 /\
    List.last (stdout (snd (main (Sample.env_conflict Sample.minimal) Sample.cli Sample.world0))) ""
    = "Error: Repository '" +:+ py_str name +:+ "' may already exist." /\
    clones (snd (main (Sample.env_conflict Sample.minimal) Sample.cli Sample.world0))
    = clones Sample.world0.
Proof.
  apply (C4_conflict_exits_before_clone (Sample.env_conflict Sample.minimal) Sample.cli
           Sample.world0 Sample.minimal Sample.unprocessable); reflexivity.
Defined.

(** ** Validation of the configuration (C5) *)

(** C5: when the configuration file parses to a mapping without
    [repo_name] or without [github_token], [load_config] raises the
    [ValueError] that names the first missing field; [main] ends with that
    error and the world is as it was, so no request has been sent. *)
Theorem C5_missing_key_fails_before_network E a w config :
  env_file E = FileParsed config ->
  Dict.mem config "repo_name" = false \/ Dict.mem config "github_token" = false ->
  exists field,
    (field = "github_token" \/ field = "repo_name") /\
    Dict.mem config field = false /\
    load_config E (arg_config a) w
    = (Raised (ValueError ("Missing required field in config: " +:+ field)), w) /\
    main E a w
    = (Raised (ValueError ("Missing required field in config: " +:+ field)), w) /\
    net (snd (main E a w)) = net w.
Proof.
  intros Hfile Hmissing.
  assert (Hload : exists field,
             (field = "github_token" \/ field = "repo_name") /\
             Dict.mem config field = false /\
             load_config E (arg_config a) w
             = (Raised (ValueError ("Missing required field in config: " +:+ field)), w)).
  { unfold load_config, safe_load, validate. unfold_monad. rewrite Hfile.
    destruct (Dict.mem config "github_token") eqn:Ht.
    - destruct Hmissing as [Hn|Hn]; [|discriminate].
      exists "repo_name". rewrite Hn. auto.
    - exists "github_token". auto. }
  destruct Hload as (field & Hfield & Hmem & Hrun).
  exists field. split; [exact Hfield|]. split; [exact Hmem|]. split; [exact Hrun|].
  assert (Hmain : main E a w
                  = (Raised (ValueError ("Missing required field in config: " +:+ field)), w)).
  { unfold main, bind at 1. now rewrite Hrun. }
  split; [exact Hmain|]. now rewrite Hmain.
Qed.

Lemma C5_missing_key_fails_before_network_witness :
  exists field,
    (field = "github_token" \/ field = "repo_name") /\
    Dict.mem Sample.no_name field = false /\
    load_config (Sample.env_ok Sample.no_name) (arg_config Sample.cli) Sample.world0
    = (Raised (ValueError ("Missing required field in config: " +:+ field)), Sample.world0) /\
    main (Sample.env_ok Sample.no_name) Sample.cli Sample.world0
    = (Raised (ValueError ("Missing required field in config: " +:+ field)), Sample.world0) /\
    net (snd (main (Sample.env_ok Sample.no_name) Sample.cli Sample.world0))
    = net Sample.world0.
Proof.
  apply (C5_missing_key_fails_before_network (Sample.env_ok Sample.no_name) Sample.cli
           Sample.world0 Sample.no_name); [reflexivity | left; reflexivity].
Defined.

(** ** The ignore-file seeder (C6) *)

Lemma basic_content_default gitignore_type :
  gitignore_type <> VStr "Python" ->
  gitignore_type <> VStr "Node" ->
  gitignore_type <> VStr "Java" ->
  basic_content gitignore_type = default_gitignore.
Proof.
  intros Hp Hn Hj. destruct gitignore_type as [| | | |name]; try reflexivity.
  unfold basic_content, Dict.get_default, basic_gitignores, Dict.get.
  destruct (String.eqb_spec "Python" name) as [<-|_]; [congruence|].
  destruct (String.eqb_spec "Node" name) as [<-|_]; [congruence|].
  destruct (String.eqb_spec "Java" name) as [<-|_]; [congruence|].
  reflexivity.
Qed.

(** What [add_gitignore] leaves in the file, whatever the git steps do. *)
Lemma add_gitignore_writes E repo_dir gitignore_type w g :
  env_get E = HttpReturns g ->
  files (snd (add_gitignore E repo_dir gitignore_type w))
  = <[os_path_join repo_dir ".gitignore" :=
        if status_code g =? 200 then text g else basic_content gitignore_type]>
      (files w).
Proof.
  intros Hget. unfold add_gitignore, git_add, git_commit, git_push. unfold_monad.
  rewrite Hget. cbn beta iota.
  destruct (status_code g =? 200);
    repeat (cbn beta iota delta [fst snd files add_stdout add_net put_file add_staged
                                 add_commit add_push]; break_inner);
    reflexivity.
Qed.

Example default_gitignore_lines :
  default_gitignore
  = String.concat (String "010" EmptyString)
      [""; "# IDE files"; ".idea/"; ".vscode/"; "*.swp"; "*.swo"; "*~"; "";
       "# OS files"; ".DS_Store"; "Thumbs.db"; ""].
Proof. reflexivity. Qed.

(** C6: for an identifier other than [Python], [Node] and [Java] whose
    template fetch is answered with a status other than 200,
    [add_gitignore] leaves in [.gitignore] of the repository the generic
    default template, character for character. *)
Theorem C6_unknown_identifier_gets_default E repo_dir gitignore_type w g :
  gitignore_type <> VStr "Python" ->
  gitignore_type <> VStr "Node" ->
  gitignore_type <> VStr "Java" ->
  env_get E = HttpReturns g ->
  status_code g <> 200 ->
  files (snd (add_gitignore E repo_dir gitignore_type w))
    !! os_path_join repo_dir ".gitignore"
  = Some default_gitignore.
Proof.
  intros Hp Hn Hj Hget Hstatus.
  rewrite (add_gitignore_writes E repo_dir gitignore_type w g Hget).
  rewrite lookup_insert_eq.
  destruct (Z.eqb_spec (status_code g) 200) as [Heq|_]; [contradiction|].
  now rewrite basic_content_default.
Qed.

Lemma C6_unknown_identifier_gets_default_witness :
  files (snd (add_gitignore (Sample.env_ok Sample.with_unknown) "demo"
                            (VStr "NoSuchLanguage") Sample.world0))
    !! os_path_join "demo" ".gitignore"
  = Some default_gitignore.
Proof.
  apply (C6_unknown_identifier_gets_default (Sample.env_ok Sample.with_unknown) "demo"
           (VStr "NoSuchLanguage") Sample.world0 Sample.not_found);
    try discriminate; reflexivity.
Defined.

(** ** The verbose echo (C10) *)

Lemma echo_items_same_but_token c1 c2 :
  same_but_token c1 c2 -> forall w, echo_items c1 w = echo_items c2 w.
Proof.
  induction 1 as [|[k1 v1] [k2 v2] c1 c2 [Hkey Hval] _ IH]; intros w; [reflexivity|].
  simpl in *. subst k2. unfold bind.
  destruct (String.eqb_spec k1 "github_token") as [->|Hne].
  - unfold print. apply IH.
  - rewrite (Hval Hne). unfold print. apply IH.
Qed.

(** C10: the line echoed for [github_token] is the fixed mask of ten
    asterisks whatever the value, and two configurations that differ only
    in the value of [github_token] are echoed identically. *)
Theorem C10_echo_masks_token c1 c2 w :
  same_but_token c1 c2 ->
  echo_config c1 w = echo_config c2 w /\
  (forall token rest w0,
      echo_items (("github_token", token) :: rest) w0
      = echo_items rest (add_stdout "  github_token: **********" w0)).
Proof.
  intros Hsame. split.
  - unfold echo_config, bind, print. now apply echo_items_same_but_token.
  - intros token rest w0. reflexivity.
Qed.

Lemma C10_echo_masks_token_witness :
  echo_config Sample.minimal Sample.world0
  = echo_config [("github_token", VStr "another-token"); ("repo_name", VStr "demo")]
                Sample.world0 /\
  (forall token rest w0,
      echo_items (("github_token", token) :: rest) w0
      = echo_items rest (add_stdout "  github_token: **********" w0)).
Proof.
  apply (C10_echo_masks_token Sample.minimal
           [("github_token", VStr "another-token"); ("repo_name", VStr "demo")]
           Sample.world0).
  repeat constructor; simpl; congruence.
Defined.

(** ** Runs that return *)

Lemma bind_returned {A B} (m : M A) (k : A -> M B) w b w2 :
  bind m k w = (Returned b, w2) ->
  exists a w1, m w = (Returned a, w1) /\ k a w1 = (Returned b, w2).
Proof.
  unfold bind. destruct (m w) as [[a|code|e] w1]; try discriminate. eauto.
Qed.

Lemma load_config_returned E path w config w' :
  load_config E path w = (Returned config, w') ->
  loaded_config E = Some config /\ w' = w.
Proof.
  unfold load_config, safe_load, validate, loaded_config. unfold_monad.
  destruct (env_file E) as [msg|msg|c]; try discriminate.
  destruct (Dict.mem c "github_token"); [|discriminate].
  destruct (Dict.mem c "repo_name"); [|discriminate].
  simpl. intros [= -> ->]. auto.
Qed.

Lemma create_github_repo_returned E config w clone_url w' :
  create_github_repo E config w = (Returned clone_url, w') ->
  created_clone_url E = Some clone_url.
Proof.
  unfold create_github_repo, on_request_exception, created_clone_url. unfold_monad.
  repeat (cbn beta iota; break_inner); cbn; intros [=]; subst; congruence.
Qed.

Lemma clone_repo_returned E clone_url directory w repo_dir w' :
  clone_repo E clone_url directory w = (Returned repo_dir, w') ->
  env_clone E = None.
Proof.
  unfold clone_repo, clone_from. unfold_monad.
  destruct (env_clone E); [discriminate|reflexivity].
Qed.

Lemma add_gitignore_returned E repo_dir gitignore_type w w' :
  add_gitignore E repo_dir gitignore_type w = (Returned tt, w') ->
  exists g, env_get E = HttpReturns g.
Proof.
  unfold add_gitignore. unfold_monad.
  destruct (env_get E) as [ex|g]; [discriminate|eauto].
Qed.

(** The whole of [add_gitignore] once the fetch is answered: it returns,
    the file is written, and the git steps either all run or the first
    failure is reported on the last line. *)
Lemma add_gitignore_answered E repo_dir gitignore_type w g :
  env_get E = HttpReturns g ->
  exists w',
    add_gitignore E repo_dir gitignore_type w = (Returned tt, w') /\
    files w'
    = <[os_path_join repo_dir ".gitignore" :=
          if status_code g =? 200 then text g else basic_content gitignore_type]>
        (files w) /\
    clones w' = clones w /\
    (exists before,
        stdout w'
        = before ++ [match git_failure E with
                     | Some msg => "Error committing .gitignore: " +:+ msg
                     | None => "Committed and pushed .gitignore file"
                     end]) /\
    (env_add E = None -> env_commit E = None ->
     commits w' = commits w ++ [(repo_dir, "Add .gitignore file")]).
Proof.
  intros Hget. unfold add_gitignore, git_add, git_commit, git_push, git_failure.
  unfold_monad. rewrite Hget. cbn beta iota.
  destruct (status_code g =? 200);
    destruct (env_add E) as [ma|]; try destruct (env_commit E) as [mc|];
    try destruct (env_push E) as [mp|];
    (eexists; split; [reflexivity|]);
    cbn; repeat split; try reflexivity; try discriminate; eauto.
Qed.

(** A run of [main] that returns has loaded its configuration, created the
    repository and cloned it; if it seeds an ignore-file, the template fetch
    was answered. *)
Lemma main_returned E a w :
  fst (main E a w) = Returned tt ->
  exists config clone_url,
    loaded_config E = Some config /\
    created_clone_url E = Some clone_url /\
    env_clone E = None /\
    (Dict.mem config "gitignore_type" = true -> exists g, env_get E = HttpReturns g).
Proof.
  destruct (main E a w) as [o wf] eqn:Hmain. simpl. intros ->.
  unfold main in Hmain.
  apply bind_returned in Hmain as (config & w0 & Hload & Hmain).
  apply load_config_returned in Hload as [Hload ->].
  apply bind_returned in Hmain as ([] & w1 & _ & Hmain).
  apply bind_returned in Hmain as (clone_url & w2 & Hcreate & Hmain).
  apply create_github_repo_returned in Hcreate.
  apply bind_returned in Hmain as (repo_dir & w3 & Hclone & Hmain).
  apply clone_repo_returned in Hclone.
  apply bind_returned in Hmain as ([] & w4 & Hseed & _).
  exists config, clone_url. repeat split; try assumption.
  intros Hmem. rewrite Hmem in Hseed.
  apply bind_returned in Hseed as (gitignore_type & w5 & _ & Hseed).
  eauto using add_gitignore_returned.
Qed.

(** The run of [main] that seeds an ignore-file. *)
Lemma main_seeded E a w config clone_url gitignore_type g :
  loaded_config E = Some config ->
  created_clone_url E = Some clone_url ->
  env_clone E = None ->
  Dict.get config "gitignore_type" = Some gitignore_type ->
  env_get E = HttpReturns g ->
  let repo_dir := target_directory (arg_directory a) clone_url in
  fst (main E a w) = Returned tt /\
  files (snd (main E a w))
  = <[os_path_join repo_dir ".gitignore" :=
        if status_code g =? 200 then text g else basic_content gitignore_type]>
      (files w) /\
  clones (snd (main E a w)) = clones w ++ [(clone_url, repo_dir)] /\
  (exists before,
      stdout (snd (main E a w))
      = before ++ [match git_failure E with
                   | Some msg => "Error committing .gitignore: " +:+ msg
                   | None => "Committed and pushed .gitignore file"
                   end] ++ completion_lines E repo_dir) /\
  (env_add E = None -> env_commit E = None ->
   commits (snd (main E a w)) = commits w ++ [(repo_dir, "Add .gitignore file")]).
Proof.
  intros Hload Hcreated Hclone Htype Hget repo_dir.
  destruct (loaded_config_inv _ _ Hload) as (_ & [token Ht] & [name Hn]).
  destruct (verbose_stage (arg_verbose a) config w) as (w1 & Hecho & Hframe).
  destruct (create_github_repo_created E config w1 token name clone_url Ht Hn Hcreated)
    as [html_url Hcreate].
  pose proof (clone_repo_cloned E clone_url (arg_directory a)
                (add_stdout ("Repository created successfully: " +:+ html_url)
                   (add_net (POST api_url (build_headers token)
                                  (build_repo_data config name))
                      (add_stdout ("Creating GitHub repository: " +:+ py_str name +:+ "...")
                                  w1)))
                Hclone) as Hcloned.
  cbv zeta in Hcloned. fold repo_dir in Hcloned.
  match type of Hcloned with
  | _ = (_, ?w3) =>
      destruct (add_gitignore_answered E repo_dir gitignore_type w3 g Hget)
        as (w4 & Hseed & Hfiles & Hclones & [before Hout] & Hcommits)
  end.
  assert (Hmain : main E a w
                  = (Returned tt,
                     add_stdout ("You can now work with your repo at: "
                                   +:+ env_abspath E repo_dir)
                       (add_stdout "
Repository setup completed successfully!" w4))).
  { unfold main, bind.
    rewrite (load_config_loaded _ _ _ _ Hload), Hecho, Hcreate, Hcloned.
    unfold Dict.mem, subscript. rewrite Htype. unfold ret. now rewrite Hseed. }
  rewrite Hmain. cbn.
  destruct Hframe as (_ & _ & Hf & Hc & _ & Hco & _).
  repeat split.
  - rewrite Hfiles. cbn. now rewrite Hf.
  - rewrite Hclones. cbn. now rewrite Hc.
  - exists before. rewrite Hout. unfold completion_lines.
    now rewrite <- !app_assoc.
  - intros Ha Hc'. rewrite (Hcommits Ha Hc'). cbn. now rewrite Hco.
Qed.

(** ** Seeding the ignore-file (C7, C8) *)

(** C7: in a run that completes, with [gitignore_type: Python] in its
    configuration and no failing git step, the file [.gitignore] of the
    cloned directory holds the text of the fetched template when the fetch
    was answered with status 200 and the built-in Python template
    otherwise, and the repository has a commit with the message
    [Add .gitignore file]. *)
Theorem C7_python_run_seeds_and_commits E a w config :
  env_file E = FileParsed config ->
  Dict.get config "gitignore_type" = Some (VStr "Python") ->
  fst (main E a w) = Returned tt ->
  git_failure E = None ->
  exists clone_url g,
    created_clone_url E = Some clone_url /\
    env_get E = HttpReturns g /\
    files (snd (main E a w))
      !! os_path_join (target_directory (arg_directory a) clone_url) ".gitignore"
    = Some (if status_code g =? 200 then text g else python_gitignore) /\
    In (target_directory (arg_directory a) clone_url, "Add .gitignore file")
       (commits (snd (main E a w))).
Proof.
  intros Hfile Htype Hret Hgit.
  destruct (main_returned E a w Hret) as (config' & clone_url & Hload & Hcreated & Hclone & Hget).
  destruct (loaded_config_inv _ _ Hload) as (Hfile' & _).
  rewrite Hfile in Hfile'. injection Hfile' as <-.
  destruct Hget as [g Hget]; [unfold Dict.mem; now rewrite Htype|].
  exists clone_url, g. split; [exact Hcreated|]. split; [exact Hget|].
  destruct (main_seeded E a w config clone_url (VStr "Python") g Hload Hcreated Hclone Htype Hget)
    as (_ & Hfiles & _ & _ & Hcommits).
  unfold git_failure in Hgit.
  destruct (env_add E) eqn:Hadd; [discriminate|].
  destruct (env_commit E) eqn:Hcommit; [discriminate|].
  split.
  - rewrite Hfiles. now rewrite lookup_insert_eq.
  - rewrite Hcommits by reflexivity. apply in_or_app. right. now left.
Qed.

Lemma C7_python_run_seeds_and_commits_witness :
  exists clone_url g,
    created_clone_url (Sample.env_ok Sample.with_python) = Some clone_url /\
    env_get (Sample.env_ok Sample.with_python) = HttpReturns g /\
    files (snd (main (Sample.env_ok Sample.with_python) Sample.cli Sample.world0))
      !! os_path_join (target_directory (arg_directory Sample.cli) clone_url) ".gitignore"
    = Some (if status_code g =? 200 then text g else python_gitignore) /\
    In (target_directory (arg_directory Sample.cli) clone_url, "Add .gitignore file")
       (commits (snd (main (Sample.env_ok Sample.with_python) Sample.cli Sample.world0))).
Proof.
  apply (C7_python_run_seeds_and_commits (Sample.env_ok Sample.with_python) Sample.cli
           Sample.world0 Sample.with_python); reflexivity.
Defined.

(** C8: in a run that reaches the commit of the ignore-file and in which
    [git add], [git commit] or [git push] fails, the failure is printed,
    the run goes on to the two closing lines and returns, and the file
    written before is still there with its content. *)
Theorem C8_commit_failure_is_not_fatal E a w config clone_url gitignore_type g msg :
  loaded_config E = Some config ->
  created_clone_url E = Some clone_url ->
  env_clone E = None ->
  Dict.get config "gitignore_type" = Some gitignore_type ->
  env_get E = HttpReturns g ->
  git_failure E = Some msg ->
  let repo_dir := target_directory (arg_directory a) clone_url in
  fst (main E a w) = Returned tt /\
  exit_status (fst (main E a w)) = 0 /\
  (exists before,
      stdout (snd (main E a w))
      = before ++ ["Error committing .gitignore: " +:+ msg] ++ completion_lines E repo_dir) /\
  files (snd (main E a w)) !! os_path_join repo_dir ".gitignore"
  = Some (if status_code g =? 200 then text g else basic_content gitignore_type).
Proof.
  intros Hload Hcreated Hclone Htype Hget Hgit repo_dir.
  destruct (main_seeded E a w config clone_url gitignore_type g Hload Hcreated Hclone Htype Hget)
    as (Hret & Hfiles & _ & Hout & _).
  fold repo_dir in Hfiles, Hout. rewrite Hgit in Hout.
  repeat split.
  - exact Hret.
  - now rewrite Hret.
  - exact Hout.
  - rewrite Hfiles. now rewrite lookup_insert_eq.
Qed.

Lemma C8_commit_failure_is_not_fatal_witness :
  let E := Sample.env_push_rejected Sample.with_python in
  let repo_dir := "demo" in
  fst (main E Sample.cli Sample.world0) = Returned tt /\
  exit_status (fst (main E Sample.cli Sample.world0)) = 0 /\
  (exists before,
      stdout (snd (main E Sample.cli Sample.world0))
      = before ++ ["Error committing .gitignore: " +:+ "push rejected"]
          ++ completion_lines E repo_dir) /\
  files (snd (main E Sample.cli Sample.world0)) !! os_path_join repo_dir ".gitignore"
  = Some python_gitignore.
Proof.
  apply (C8_commit_failure_is_not_fatal (Sample.env_push_rejected Sample.with_python)
           Sample.cli Sample.world0 Sample.with_python
           "https://github.com/octocat/demo.git" (VStr "Python") Sample.not_found
           "push rejected"); reflexivity.
Defined.

(** ** Runs without [gitignore_type] (C9) *)

Section Idle.

Variable E : env.

Lemma seeder_idle_refl w : seeder_idle w w.
Proof. unfold seeder_idle. auto. Qed.

Lemma seeder_idle_trans w1 w2 w3 :
  seeder_idle w1 w2 -> seeder_idle w2 w3 -> seeder_idle w1 w3.
Proof. unfold seeder_idle. intuition congruence. Qed.

Lemma only_printed_idle w w' : only_printed w w' -> seeder_idle w w'.
Proof.
  unfold only_printed, seeder_idle. intros (_ & Hnet & Hrest).
  rewrite Hnet. tauto.
Qed.

Lemma idle_bind {A B} (m : M A) (k : A -> M B) w :
  seeder_idle w (snd (m w)) ->
  (forall a w1, m w = (Returned a, w1) -> seeder_idle w1 (snd (k a w1))) ->
  seeder_idle w (snd (bind m k w)).
Proof.
  unfold bind. destruct (m w) as [[a|code|e] w1]; simpl; intros Hm Hk; try exact Hm.
  eapply seeder_idle_trans; [exact Hm | now apply Hk].
Qed.

Ltac idle_cases :=
  repeat (cbn beta iota; break_inner);
  unfold seeder_idle; cbn;
  rewrite ?List.filter_app; cbn; rewrite ?app_nil_r; auto.

Lemma load_config_idle path w : seeder_idle w (snd (load_config E path w)).
Proof. unfold load_config, safe_load, validate. unfold_monad. idle_cases. Qed.

Lemma create_github_repo_idle config w :
  seeder_idle w (snd (create_github_repo E config w)).
Proof. unfold create_github_repo, on_request_exception. unfold_monad. idle_cases. Qed.

Lemma clone_repo_idle clone_url directory w :
  seeder_idle w (snd (clone_repo E clone_url directory w)).
Proof. unfold clone_repo, clone_from. unfold_monad. idle_cases. Qed.

Lemma print_idle line w : seeder_idle w (snd (print line w)).
Proof. unfold print, seeder_idle. cbn. auto. Qed.

Lemma main_idle a w config :
  env_file E = FileParsed config ->
  Dict.mem config "gitignore_type" = false ->
  seeder_idle w (snd (main E a w)).
Proof.
  intros Hfile Hmem. unfold main.
  apply idle_bind; [apply load_config_idle|].
  intros config' w1 Hload.
  apply load_config_returned in Hload as [Hload ->].
  apply loaded_config_inv in Hload as (Hfile' & _).
  rewrite Hfile in Hfile'. injection Hfile' as <-.
  apply idle_bind.
  { destruct (verbose_stage (arg_verbose a) config w) as (w1 & -> & Hframe).
    now apply only_printed_idle. }
  intros _ w2 _.
  apply idle_bind; [apply create_github_repo_idle|]. intros clone_url w3 _.
  apply idle_bind; [apply clone_repo_idle|]. intros repo_dir w4 _.
  rewrite Hmem.
  apply idle_bind; [apply seeder_idle_refl|]. intros _ w5 _.
  apply idle_bind; [apply print_idle|]. intros _ w6 _.
  apply print_idle.
Qed.

End Idle.

(** The run of [main] that does not seed an ignore-file. *)
Lemma main_not_seeded E a w config clone_url :
  loaded_config E = Some config ->
  created_clone_url E = Some clone_url ->
  env_clone E = None ->
  Dict.mem config "gitignore_type" = false ->
  let repo_dir := target_directory (arg_directory a) clone_url in
  fst (main E a w) = Returned tt /\
  clones (snd (main E a w)) = clones w ++ [(clone_url, repo_dir)] /\
  (exists before,
      stdout (snd (main E a w))
      = before ++ ["Repository cloned successfully to " +:+ repo_dir]
          ++ completion_lines E repo_dir).
Proof.
  intros Hload Hcreated Hclone Hmem repo_dir.
  destruct (loaded_config_inv _ _ Hload) as (_ & [token Ht] & [name Hn]).
  destruct (verbose_stage (arg_verbose a) config w) as (w1 & Hecho & Hframe).
  destruct (create_github_repo_created E config w1 token name clone_url Ht Hn Hcreated)
    as [html_url Hcreate].
  assert (Hmain : exists w3,
             clones w3 = clones w1 ++ [(clone_url, repo_dir)] /\
             main E a w
             = (Returned tt,
                add_stdout ("You can now work with your repo at: "
                              +:+ env_abspath E repo_dir)
                  (add_stdout "
Repository setup completed successfully!"
                     (add_stdout ("Repository cloned successfully to " +:+ repo_dir) w3)))).
  { eexists. split; [|unfold main, bind;
      rewrite (load_config_loaded _ _ _ _ Hload), Hecho, Hcreate,
        (clone_repo_cloned E clone_url (arg_directory a) _ Hclone), Hmem;
      reflexivity].
    reflexivity. }
  destruct Hmain as (w3 & Hclones & Hmain). rewrite Hmain. cbn.
  destruct Hframe as (_ & _ & _ & Hc & _).
  repeat split.
  - now rewrite Hclones, Hc.
  - exists (stdout w3). unfold completion_lines. now rewrite <- !app_assoc.
Qed.

(** C9: when the loaded mapping has no [gitignore_type] key, whatever the
    other calls answer, the run writes no file, sends no GET and stages,
    commits and pushes nothing; and when the repository is created and
    cloned, the run returns with the closing lines printed right after the
    clone's. *)
Theorem C9_no_gitignore_type_skips_seeder E a w config :
  env_file E = FileParsed config ->
  Dict.mem config "gitignore_type" = false ->
  seeder_idle w (snd (main E a w)) /\
  (forall clone_url,
      loaded_config E = Some config ->
      created_clone_url E = Some clone_url ->
      env_clone E = None ->
      fst (main E a w) = Returned tt /\
      clones (snd (main E a w))
      = clones w ++ [(clone_url, target_directory (arg_directory a) clone_url)] /\
      (exists before,
          stdout (snd (main E a w))
          = before
              ++ ["Repository cloned successfully to "
                    +:+ target_directory (arg_directory a) clone_url]
              ++ completion_lines E (target_directory (arg_directory a) clone_url))).
Proof.
  intros Hfile Hmem. split.
  - now apply (main_idle E a w config).
  - intros clone_url Hload Hcreated Hclone.
    exact (main_not_seeded E a w config clone_url Hload Hcreated Hclone Hmem).
Qed.

Lemma C9_no_gitignore_type_skips_seeder_witness :
  seeder_idle Sample.world0
    (snd (main (Sample.env_ok Sample.minimal) Sample.cli Sample.world0)) /\
  fst (main (Sample.env_ok Sample.minimal) Sample.cli Sample.world0) = Returned tt /\
  clones (snd (main (Sample.env_ok Sample.minimal) Sample.cli Sample.world0))
  = [("https://github.com/octocat/demo.git", "demo")].
Proof.
  destruct (C9_no_gitignore_type_skips_seeder (Sample.env_ok Sample.minimal) Sample.cli
              Sample.world0 Sample.minimal) as [Hidle Hrun]; try reflexivity.
  destruct (Hrun "https://github.com/octocat/demo.git") as (Hret & Hclones & _);
    try reflexivity.
  split; [exact Hidle|]. split; [exact Hret | exact Hclones].
Defined.

(** ** Loading the configuration *)

(** X1: The validation loop stops at the first required field that the
    configuration lacks and raises for it; it prints nothing. *)
Theorem validate_stops_at_first_missing required_fields config w :
  validate required_fields config w
  = match List.find (fun field => negb (Dict.mem config field)) required_fields with
    | Some field =>
        (Raised (ValueError ("Missing required field in config: " +:+ field)), w)
    | None => (Returned tt, w)
    end.
Proof.
  induction required_fields as [|field rest IH]; [reflexivity|].
  cbn [validate List.find]. destruct (negb (Dict.mem config field)); [reflexivity|].
  exact IH.
Qed.

(** X2: [load_config] returns exactly when the file parses and holds both
    required keys; it then returns the parsed mapping as it is and leaves
    the world untouched. *)
Theorem load_config_returns_iff E path w config w' :
  load_config E path w = (Returned config, w')
  <-> (loaded_config E = Some config /\ w' = w).
Proof.
  split.
  - apply load_config_returned.
  - intros [Hload ->]. now apply load_config_loaded.
Qed.

(** X3: A configuration file that is missing or is not valid YAML ends the
    run at once: one line is printed, the exit status is 1, and nothing
    else has happened. *)
Theorem unreadable_config_is_fatal E a w line :
  (exists msg, env_file E = FileMissing msg /\
               line = "Error: Config file '" +:+ arg_config a +:+ "' not found.") \/
  (exists msg, env_file E = FileMalformed msg /\
               line = "Error parsing YAML config: " +:+ msg) ->
  main E a w = (Exited 1, add_stdout line w).
Proof.
  intros [(msg & Hfile & ->)|(msg & Hfile & ->)];
    unfold main, load_config, safe_load; unfold_monad; now rewrite Hfile.
Qed.

Lemma unreadable_config_is_fatal_witness :
  main (Sample.env_malformed "mapping values are not allowed here") Sample.cli Sample.world0
  = (Exited 1,
     add_stdout "Error parsing YAML config: mapping values are not allowed here"
                Sample.world0).
Proof.
  apply (unreadable_config_is_fatal
           (Sample.env_malformed "mapping values are not allowed here") Sample.cli
           Sample.world0).
  right. exists "mapping values are not allowed here". split; reflexivity.
Defined.

(** ** The request body *)

Lemma dict_get_set {V} (d : Dict.t V) k v k' :
  Dict.get (Dict.set d k v) k'
  = if String.eqb k k' then Some v else Dict.get d k'.
Proof.
  induction d as [|[k0 v0] d IH]; cbn.
  - reflexivity.
  - destruct (String.eqb_spec k0 k) as [->|Hne]; cbn.
    + now destruct (String.eqb k k').
    + destruct (String.eqb_spec k0 k') as [->|Hne'].
      * destruct (String.eqb_spec k k') as [->|_]; [congruence|reflexivity].
      * exact IH.
Qed.

Lemma dict_keys_set {V} (d : Dict.t V) k v :
  Dict.keys (Dict.set d k v)
  = if Dict.mem d k then Dict.keys d else Dict.keys d ++ [k].
Proof.
  unfold Dict.mem, Dict.keys. induction d as [|[k0 v0] d IH]; cbn; [reflexivity|].
  destruct (String.eqb k0 k); cbn; [reflexivity|].
  rewrite IH. now destruct (Dict.get d k).
Qed.

Lemma get_copy_if_present config key repo_data k :
  Dict.get (copy_if_present config key repo_data) k
  = if String.eqb key k
    then match Dict.get config key with
         | Some v => Some v
         | None => Dict.get repo_data k
         end
    else Dict.get repo_data k.
Proof.
  unfold copy_if_present. destruct (Dict.get config key).
  - apply dict_get_set.
  - now destruct (String.eqb key k).
Qed.

(** X4: Every member of the request body: [name] is the repository name,
    [private] the configured value or [False], each of the five optional
    fields the configured value when there is one, and no other key of the
    configuration is copied. *)
Theorem build_repo_data_members config repo_name k :
  Dict.get (build_repo_data config repo_name) k
  = if String.eqb k "name" then Some repo_name
    else if String.eqb k "private"
         then Some (Dict.get_default config "private" (VBool false))
    else if existsb (String.eqb k)
              ["description"; "homepage"; "has_wiki"; "has_issues"; "auto_init"]
         then Dict.get config k
    else None.
Proof.
  unfold build_repo_data. rewrite !get_copy_if_present. cbn [Dict.get existsb].
  rewrite !(String.eqb_sym k).
  repeat match goal with
         | |- context [String.eqb ?s k] =>
             destruct (String.eqb_spec s k) as [<-|?];
             [ solve [ cbn;
                       repeat match goal with
                              | |- context [match Dict.get config ?key with _ => _ end] =>
                                  destruct (Dict.get config key)
                              end; reflexivity ]
             | cbv iota; cbn [orb] ]
         end.
  reflexivity.
Qed.

(** X5: The keys of the request body, in order: [name], [private], then those
    of the five optional fields that the configuration has.  No other key
    of the configuration, [github_token] least of all, is ever in it. *)
Theorem build_repo_data_keys config repo_name :
  Dict.keys (build_repo_data config repo_name)
  = "name" :: "private"
      :: List.filter (Dict.mem config)
           ["description"; "homepage"; "has_wiki"; "has_issues"; "auto_init"].
Proof.
  unfold build_repo_data, copy_if_present, Dict.mem. cbn [List.filter].
  destruct (Dict.get config "description"); destruct (Dict.get config "homepage");
    destruct (Dict.get config "has_wiki"); destruct (Dict.get config "has_issues");
    destruct (Dict.get config "auto_init"); reflexivity.
Qed.

(** ** The creation request *)

Lemma not_error_status_not_422 code :
  is_error_status code = false -> (code =? 422) = false.
Proof.
  unfold is_error_status. intros H. destruct (Z.eqb_spec code 422) as [->|_]; [|reflexivity].
  discriminate H.
Qed.

(** X6: [create_github_repo] sends its request once, whatever the answer: a
    POST to the API with the token in the [Authorization] header and the
    body of [build_repo_data].  There is no second attempt. *)
Theorem create_github_repo_sends_once E config w token repo_name :
  Dict.get config "github_token" = Some token ->
  Dict.get config "repo_name" = Some repo_name ->
  net (snd (create_github_repo E config w))
  = net w ++ [POST "https://api.github.com/user/repos"
                   [("Authorization", "token " +:+ py_str token);
                    ("Accept", "application/vnd.github.v3+json")]
                   (build_repo_data config repo_name)].
Proof. intros Ht Hn. exact (create_github_repo_sends E config w token repo_name Ht Hn). Qed.

Lemma create_github_repo_sends_once_witness :
  net (snd (create_github_repo (Sample.env_conflict Sample.minimal) Sample.minimal
                               Sample.world0))
  = net Sample.world0
      ++ [POST "https://api.github.com/user/repos"
               [("Authorization", "token " +:+ py_str (VStr "ghp_0123456789"));
                ("Accept", "application/vnd.github.v3+json")]
               (build_repo_data Sample.minimal (VStr "demo"))].
Proof.
  apply (create_github_repo_sends_once (Sample.env_conflict Sample.minimal) Sample.minimal
           Sample.world0 (VStr "ghp_0123456789") (VStr "demo")); reflexivity.
Defined.

(** X7: Called on a mapping without one of the two required keys,
    [create_github_repo] raises [KeyError] for the first one missing,
    before it prints or sends anything. *)
Theorem create_github_repo_missing_key E config w key :
  (Dict.get config "github_token" = None /\ key = "github_token") \/
  (Dict.mem config "github_token" = true /\ Dict.get config "repo_name" = None
   /\ key = "repo_name") ->
  create_github_repo E config w = (Raised (KeyError key), w).
Proof.
  unfold create_github_repo, Dict.mem. unfold_monad.
  intros [[Ht ->]|(Ht & Hn & ->)].
  - now rewrite Ht.
  - destruct (Dict.get config "github_token"); [|discriminate]. now rewrite Hn.
Qed.

Lemma create_github_repo_missing_key_witness :
  create_github_repo (Sample.env_ok Sample.no_name) Sample.no_name Sample.world0
  = (Raised (KeyError "repo_name"), Sample.world0).
Proof.
  apply (create_github_repo_missing_key (Sample.env_ok Sample.no_name) Sample.no_name
           Sample.world0 "repo_name").
  right. repeat split; reflexivity.
Defined.

(** X8: An answer with an error status other than 422 is fatal: the text of
    the [HTTPError] is printed and the exit status is 1.  The body of the
    response is not printed: the handler prints it only when [e.response]
    is true, and a response with an error status is false. *)
Theorem http_error_prints_no_body E config w token repo_name r :
  Dict.get config "github_token" = Some token ->
  Dict.get config "repo_name" = Some repo_name ->
  env_post E = HttpReturns r ->
  is_error_status (status_code r) = true ->
  status_code r <> 422 ->
  create_github_repo E config w
  = (Exited 1,
     add_stdout ("Error creating repository: " +:+ resp_http_error r)
       (add_net (POST api_url (build_headers token) (build_repo_data config repo_name))
          (add_stdout ("Creating GitHub repository: " +:+ py_str repo_name +:+ "...") w))).
Proof.
  intros Ht Hn Hpost Herr Hne.
  rewrite (create_github_repo_http_error E config w token repo_name r Ht Hn Hpost Herr).
  destruct (Z.eqb_spec (status_code r) 422); [contradiction|reflexivity].
Qed.

Lemma http_error_prints_no_body_witness :
  create_github_repo (Sample.env_unauthorized Sample.minimal) Sample.minimal Sample.world0
  = (Exited 1,
     add_stdout ("Error creating repository: " +:+ resp_http_error Sample.unauthorized)
       (add_net (POST api_url (build_headers (VStr "ghp_0123456789"))
                      (build_repo_data Sample.minimal (VStr "demo")))
          (add_stdout ("Creating GitHub repository: " +:+ py_str (VStr "demo") +:+ "...")
                      Sample.world0))).
Proof.
  apply (http_error_prints_no_body (Sample.env_unauthorized Sample.minimal) Sample.minimal
           Sample.world0 (VStr "ghp_0123456789") (VStr "demo") Sample.unauthorized);
    try reflexivity.
  discriminate.
Defined.

(** X9: What [create_github_repo] makes of an answer without an error status:
    a body that is not JSON is fatal (exit status 1); an object without
    [html_url] or without [clone_url] is an uncaught [KeyError]; otherwise
    the value of [clone_url] is returned. *)
Theorem create_github_repo_on_success_status E config w token repo_name r :
  Dict.get config "github_token" = Some token ->
  Dict.get config "repo_name" = Some repo_name ->
  env_post E = HttpReturns r ->
  is_error_status (status_code r) = false ->
  fst (create_github_repo E config w)
  = match resp_json r with
    | JsonDecodeError _ => Exited 1
    | JsonObject result =>
        match Dict.get result "html_url", Dict.get result "clone_url" with
        | None, _ => Raised (KeyError "html_url")
        | Some _, None => Raised (KeyError "clone_url")
        | Some _, Some clone_url => Returned clone_url
        end
    end.
Proof.
  intros Ht Hn Hpost Hok.
  unfold create_github_repo, on_request_exception. unfold_monad.
  rewrite Ht, Hn, Hpost. cbn. rewrite Hok. cbn.
  destruct (resp_json r) as [msg|result]; cbn.
  - now rewrite (not_error_status_not_422 _ Hok).
  - destruct (Dict.get result "html_url"); cbn; [|reflexivity].
    now destruct (Dict.get result "clone_url").
Qed.

Lemma create_github_repo_on_success_status_witness :
  fst (create_github_repo (Sample.env_ok Sample.minimal) Sample.minimal Sample.world0)
  = Returned "https://github.com/octocat/demo.git".
Proof.
  apply (create_github_repo_on_success_status (Sample.env_ok Sample.minimal) Sample.minimal
           Sample.world0 (VStr "ghp_0123456789") (VStr "demo") Sample.created);
    reflexivity.
Defined.

(** ** The clone directory *)

Lemma occurs_char_cons c a s :
  PyStr.occurs (String c EmptyString) (String a s)
  = Ascii.eqb a c || PyStr.occurs (String c EmptyString) s.
Proof.
  cbn [PyStr.occurs PyStr.startswith]. rewrite (Ascii.eqb_sym c a).
  now destruct (Ascii.eqb a c).
Qed.

Lemma occurs_char_app c s1 s2 :
  PyStr.occurs (String c EmptyString) (s1 +:+ s2)
  = PyStr.occurs (String c EmptyString) s1 || PyStr.occurs (String c EmptyString) s2.
Proof.
  induction s1 as [|a s1 IH].
  - cbn [String.append]. now destruct s2.
  - change (String a s1 +:+ s2) with (String a (s1 +:+ s2)).
    rewrite !occurs_char_cons, IH. now rewrite orb_assoc.
Qed.

Lemma append_assoc (s1 s2 s3 : string) : (s1 +:+ s2) +:+ s3 = s1 +:+ (s2 +:+ s3).
Proof.
  induction s1 as [|a s1 IH]; [reflexivity|].
  change (String a ((s1 +:+ s2) +:+ s3) = String a (s1 +:+ (s2 +:+ s3))). now f_equal.
Qed.

Lemma append_empty_r (s : string) : s +:+ EmptyString = s.
Proof.
  induction s as [|a s IH]; [reflexivity|].
  change (String a (s +:+ EmptyString) = String a s). now f_equal.
Qed.

Lemma split_go_not_nil sep cur s : PyStr.split_go sep cur s <> [].
Proof.
  revert cur. induction s as [|a s IH]; intros cur; cbn; [discriminate|].
  destruct (Ascii.eqb a sep); [discriminate|apply IH].
Qed.

(** No piece of a split holds the separator. *)
Lemma split_go_pieces sep cur s :
  PyStr.occurs (String sep EmptyString) cur = false ->
  Forall (fun piece => PyStr.occurs (String sep EmptyString) piece = false)
         (PyStr.split_go sep cur s).
Proof.
  revert cur. induction s as [|a s IH]; intros cur Hcur; cbn.
  - now constructor.
  - destruct (Ascii.eqb a sep) eqn:Ha.
    + constructor; [exact Hcur|]. now apply IH.
    + apply IH. rewrite occurs_char_app, Hcur, occurs_char_cons, Ha. reflexivity.
Qed.

(** A string without the separator is its own single piece. *)
Lemma split_go_no_sep sep cur s :
  PyStr.occurs (String sep EmptyString) s = false ->
  PyStr.split_go sep cur s = [cur +:+ s].
Proof.
  revert cur. induction s as [|a s IH]; intros cur Hs; cbn [PyStr.split_go].
  - now rewrite append_empty_r.
  - rewrite occurs_char_cons in Hs. apply orb_false_iff in Hs as [Ha Hs].
    rewrite Ha, (IH _ Hs). now rewrite append_assoc.
Qed.

Lemma last_item_after_slash sep cur base seg :
  PyStr.occurs (String sep EmptyString) seg = false ->
  PyStr.last_item (PyStr.split_go sep cur (base +:+ String sep seg)) = seg.
Proof.
  intros Hseg. unfold PyStr.last_item. revert cur.
  induction base as [|a base IH]; intros cur.
  - change (EmptyString +:+ String sep seg) with (String sep seg).
    cbn [PyStr.split_go]. rewrite Ascii.eqb_refl, (split_go_no_sep _ _ _ Hseg).
    reflexivity.
  - change (String a base +:+ String sep seg) with (String a (base +:+ String sep seg)).
    cbn [PyStr.split_go]. destruct (Ascii.eqb a sep).
    + specialize (IH EmptyString).
      destruct (PyStr.split_go sep "" (base +:+ String sep seg)) eqn:Hsplit.
      * now apply split_go_not_nil in Hsplit.
      * exact IH.
    + apply IH.
Qed.

(** Removing occurrences adds no character. *)
Lemma replace_go_removes_only c old skip s :
  PyStr.occurs (String c EmptyString) s = false ->
  PyStr.occurs (String c EmptyString) (PyStr.replace_go old "" skip s) = false.
Proof.
  revert skip. induction s as [|a s IH]; intros skip Hs; [reflexivity|].
  rewrite occurs_char_cons in Hs. apply orb_false_iff in Hs as [Ha Hs].
  cbn [PyStr.replace_go]. destruct skip as [|skip].
  - destruct (PyStr.startswith old (String a s)).
    + cbn [String.append]. now apply IH.
    + rewrite occurs_char_cons, Ha. now apply IH.
  - now apply IH.
Qed.

(** X10: The default directory is a single path component: whatever the clone
    URL, it holds no slash. *)
Theorem default_directory_has_no_slash clone_url :
  PyStr.occurs "/" (default_directory clone_url) = false.
Proof.
  unfold default_directory, PyStr.replace. apply replace_go_removes_only.
  pose proof (split_go_pieces "/" EmptyString clone_url eq_refl) as Hpieces.
  unfold PyStr.last_item, PyStr.split.
  destruct (PyStr.split_go "/" "" clone_url) as [|p ps] eqn:Hsplit.
  - now apply split_go_not_nil in Hsplit.
  - rewrite List.Forall_forall in Hpieces. apply Hpieces.
    destruct (@List.exists_last _ (p :: ps)) as (front & final & Heq); [discriminate|].
    rewrite Heq, List.last_last. apply in_or_app. right. now left.
Qed.

(** X11: For the clone URL of a repository, [<base>/<name>.git], where the name
    holds no slash and [.git] occurs in [<name>.git] only as the suffix,
    the default directory is the repository name. *)
Theorem default_directory_of_repository_url base name :
  PyStr.occurs "/" name = false ->
  PyStr.occurs ".git" (name +:+ ".gi") = false ->
  default_directory (base +:+ "/" +:+ name +:+ ".git") = name.
Proof.
  intros Hslash Hgit. apply default_directory_of_suffixed; [|exact Hgit].
  unfold PyStr.split. apply (last_item_after_slash "/" EmptyString base (name +:+ ".git")).
  now rewrite occurs_char_app, Hslash.
Qed.

Lemma default_directory_of_repository_url_witness :
  default_directory ("https://github.com/octocat" +:+ "/" +:+ "demo" +:+ ".git") = "demo".
Proof.
  apply (default_directory_of_repository_url "https://github.com/octocat" "demo");
    reflexivity.
Defined.

(** ** Cloning *)

(** X12: A directory given on the command line is used as it is, whatever the
    URL; an empty one counts as not given.  The directory chosen is both
    the one cloned into and the one returned. *)
Theorem clone_repo_directory_choice E clone_url directory w :
  env_clone E = None ->
  let chosen :=
    match directory with
    | Some (String c rest) => String c rest
    | _ => default_directory clone_url
    end in
  fst (clone_repo E clone_url directory w) = Returned chosen /\
  clones (snd (clone_repo E clone_url directory w)) = clones w ++ [(clone_url, chosen)].
Proof.
  intros Hclone chosen.
  rewrite (clone_repo_cloned E clone_url directory w Hclone).
  assert (Hdir : target_directory directory clone_url = chosen)
    by now destruct directory as [[|c rest]|].
  cbn. now rewrite Hdir.
Qed.

Lemma clone_repo_directory_choice_witness :
  fst (clone_repo (Sample.env_ok Sample.minimal) Sample.pages_url (Some "site")
                  Sample.world0)
  = Returned "site" /\
  clones (snd (clone_repo (Sample.env_ok Sample.minimal) Sample.pages_url (Some "site")
                          Sample.world0))
  = clones Sample.world0 ++ [(Sample.pages_url, "site")].
Proof.
  apply (clone_repo_directory_choice (Sample.env_ok Sample.minimal) Sample.pages_url
           (Some "site") Sample.world0).
  reflexivity.
Defined.

Lemma clone_repo_failed E clone_url directory w msg :
  env_clone E = Some msg ->
  clone_repo E clone_url directory w
  = (Exited 1,
     add_stdout ("Error cloning repository: " +:+ msg)
       (add_stdout ("Cloning repository to "
                      +:+ target_directory directory clone_url +:+ "...") w)).
Proof.
  intros Hclone. unfold clone_repo, clone_from. unfold_monad. now rewrite Hclone.
Qed.

(** X13: When the clone fails after the repository was created, the run prints
    the git error and exits with status 1.  The creation request has been
    sent and is not undone; nothing is cloned, fetched or written. *)
Theorem failed_clone_leaves_remote_repository E a w config clone_url msg :
  loaded_config E = Some config ->
  created_clone_url E = Some clone_url ->
  env_clone E = Some msg ->
  fst (main E a w) = Exited 1 /\
  List.last (stdout (snd (main E a w))) "" = "Error cloning repository: " +:+ msg /\
  (exists headers body, net (snd (main E a w)) = net w ++ [POST api_url headers body]) /\
  clones (snd (main E a w)) = clones w /\
  files (snd (main E a w)) = files w.
Proof.
  intros Hload Hcreated Hclone.
  destruct (loaded_config_inv _ _ Hload) as (_ & [token Ht] & [name Hn]).
  destruct (verbose_stage (arg_verbose a) config w) as (w1 & Hecho & Hframe).
  destruct (create_github_repo_created E config w1 token name clone_url Ht Hn Hcreated)
    as [html_url Hcreate].
  assert (Hmain : exists w2,
             main E a w = (Exited 1, add_stdout ("Error cloning repository: " +:+ msg) w2) /\
             net w2 = net w1 ++ [POST api_url (build_headers token)
                                      (build_repo_data config name)] /\
             clones w2 = clones w1 /\ files w2 = files w1).
  { eexists. split.
    - unfold main, bind.
      rewrite (load_config_loaded _ _ _ _ Hload), Hecho, Hcreate.
      rewrite (clone_repo_failed E clone_url (arg_directory a) _ msg Hclone). reflexivity.
    - cbn. auto. }
  destruct Hmain as (w2 & Hmain & Hnet & Hclones & Hfiles). rewrite Hmain. cbn.
  destruct Hframe as (_ & Hn1 & Hf1 & Hc1 & _).
  repeat split.
  - now rewrite List.last_last.
  - exists (build_headers token), (build_repo_data config name). now rewrite Hnet, Hn1.
  - now rewrite Hclones, Hc1.
  - now rewrite Hfiles, Hf1.
Qed.

Lemma failed_clone_leaves_remote_repository_witness :
  fst (main (Sample.env_clone_fails Sample.with_python) Sample.cli Sample.world0)
  = Exited 1 /\
  List.last (stdout (snd (main (Sample.env_clone_fails Sample.with_python) Sample.cli
                               Sample.world0))) ""
  = "Error cloning repository: " +:+ "destination path 'demo' already exists" /\
  (exists headers body,
      net (snd (main (Sample.env_clone_fails Sample.with_python) Sample.cli Sample.world0))
      = net Sample.world0 ++ [POST api_url headers body]) /\
  clones (snd (main (Sample.env_clone_fails Sample.with_python) Sample.cli Sample.world0))
  = clones Sample.world0 /\
  files (snd (main (Sample.env_clone_fails Sample.with_python) Sample.cli Sample.world0))
  = files Sample.world0.
Proof.
  apply (failed_clone_leaves_remote_repository (Sample.env_clone_fails Sample.with_python)
           Sample.cli Sample.world0 Sample.with_python
           "https://github.com/octocat/demo.git"
           "destination path 'demo' already exists"); reflexivity.
Defined.

(** ** The ignore-file *)

(** X14: [add_gitignore] writes one file and no other: [.gitignore] in the
    repository directory.  A template fetched with status 200 is written
    as received, whatever the identifier; otherwise the built-in template
    of the identifier, or the default one, is written. *)
Theorem add_gitignore_writes_one_file E repo_dir gitignore_type w g :
  env_get E = HttpReturns g ->
  files (snd (add_gitignore E repo_dir gitignore_type w))
  = <[os_path_join repo_dir ".gitignore" :=
        if status_code g =? 200 then text g
        else match gitignore_type with
             | VStr "Python" => python_gitignore
             | VStr "Node" => node_gitignore
             | VStr "Java" => java_gitignore
             | _ => default_gitignore
             end]>
      (files w).
Proof.
  intros Hget. rewrite (add_gitignore_writes E repo_dir gitignore_type w g Hget).
  f_equal. destruct (status_code g =? 200); [reflexivity|].
  destruct gitignore_type as [| | | |name]; try reflexivity.
  destruct (String.eqb_spec "Python" name) as [<-|Hp]; [reflexivity|].
  destruct (String.eqb_spec "Node" name) as [<-|Hn]; [reflexivity|].
  destruct (String.eqb_spec "Java" name) as [<-|Hj]; [reflexivity|].
  rewrite basic_content_default by congruence.
  repeat match goal with
         | |- context [match ?s with EmptyString => _ | String _ _ => _ end] =>
             is_var s; destruct s; try reflexivity
         | |- context [match ?c with Ascii _ _ _ _ _ _ _ _ => _ end] =>
             is_var c; destruct c
         | |- context [if ?b then _ else _] => is_var b; destruct b; try reflexivity
         end; congruence.
Qed.

Lemma add_gitignore_writes_one_file_witness :
  files (snd (add_gitignore (Sample.env_fetched Sample.with_python) "demo" (VStr "Python")
                            Sample.world0))
  = <["demo/.gitignore" := "*.pyc"]> (files Sample.world0).
Proof.
  apply (add_gitignore_writes_one_file (Sample.env_fetched Sample.with_python) "demo"
           (VStr "Python") Sample.world0 Sample.template).
  reflexivity.
Defined.

(** X15: A template fetch that raises (no network, for one) is not caught:
    [add_gitignore] ends with the exception of [requests.get], having
    printed its opening line and written nothing. *)
Theorem fetch_exception_is_uncaught E repo_dir gitignore_type w ex :
  env_get E = HttpRaises ex ->
  add_gitignore E repo_dir gitignore_type w
  = (Raised (RequestException ex),
     add_net (GET ("https://raw.githubusercontent.com/github/gitignore/main/"
                     +:+ py_str gitignore_type +:+ ".gitignore"))
       (add_stdout ("Adding .gitignore file for " +:+ py_str gitignore_type +:+ "...") w)).
Proof.
  intros Hget. unfold add_gitignore. unfold_monad. now rewrite Hget.
Qed.

Lemma fetch_exception_is_uncaught_witness :
  add_gitignore (Sample.env_fetch_raises Sample.with_python) "demo" (VStr "Python")
                Sample.world0
  = (Raised (RequestException Sample.dns_failure),
     add_net (GET ("https://raw.githubusercontent.com/github/gitignore/main/"
                     +:+ py_str (VStr "Python") +:+ ".gitignore"))
       (add_stdout ("Adding .gitignore file for " +:+ py_str (VStr "Python") +:+ "...")
                   Sample.world0)).
Proof.
  apply (fetch_exception_is_uncaught (Sample.env_fetch_raises Sample.with_python) "demo"
           (VStr "Python") Sample.world0 Sample.dns_failure).
  reflexivity.
Defined.

(** X16: The git steps run in order and stop at the first failure: the file is
    staged unless [git add] fails, committed only if it was staged and
    [git commit] succeeds, pushed only if it was committed and the push
    succeeds.  A commit whose push fails stays in the local repository. *)
Theorem git_steps_stop_at_first_failure E repo_dir gitignore_type w g :
  env_get E = HttpReturns g ->
  let w' := snd (add_gitignore E repo_dir gitignore_type w) in
  staged w'
  = (match env_add E with
     | None => staged w ++ [(repo_dir, ".gitignore")]
     | Some _ => staged w
     end) /\
  commits w'
  = (match env_add E, env_commit E with
     | None, None => commits w ++ [(repo_dir, "Add .gitignore file")]
     | _, _ => commits w
     end) /\
  pushes w'
  = (match env_add E, env_commit E, env_push E with
     | None, None, None => pushes w ++ [(repo_dir, "origin")]
     | _, _, _ => pushes w
     end).
Proof.
  intros Hget. unfold add_gitignore, git_add, git_commit, git_push. unfold_monad.
  rewrite Hget. cbn beta iota zeta.
  destruct (status_code g =? 200);
    destruct (env_add E); destruct (env_commit E); destruct (env_push E);
    cbn; auto.
Qed.

Lemma git_steps_stop_at_first_failure_witness :
  let w' := snd (add_gitignore (Sample.env_push_rejected Sample.with_python) "demo"
                               (VStr "Python") Sample.world0) in
  staged w' = [("demo", ".gitignore")] /\
  commits w' = [("demo", "Add .gitignore file")] /\
  pushes w' = [].
Proof.
  apply (git_steps_stop_at_first_failure (Sample.env_push_rejected Sample.with_python)
           "demo" (VStr "Python") Sample.world0 Sample.not_found).
  reflexivity.
Defined.

(** ** Whole runs *)

(** X17: [main] returns, so that the exit status is 0, exactly when the
    configuration loads, the repository is created, the clone succeeds and,
    if an ignore-file is asked for, the template fetch is answered.  The
    three git steps of the ignore-file have no say in it. *)
Theorem main_returns_iff E a w :
  fst (main E a w) = Returned tt
  <-> exists config clone_url,
        loaded_config E = Some config /\
        created_clone_url E = Some clone_url /\
        env_clone E = None /\
        (Dict.mem config "gitignore_type" = true -> exists g, env_get E = HttpReturns g).
Proof.
  split; [apply main_returned|].
  intros (config & clone_url & Hload & Hcreated & Hclone & Hget).
  destruct (Dict.get config "gitignore_type") as [gitignore_type|] eqn:Htype.
  - destruct Hget as [g Hget]; [unfold Dict.mem; now rewrite Htype|].
    now apply (main_seeded E a w config clone_url gitignore_type g).
  - apply (main_not_seeded E a w config clone_url); try assumption.
    unfold Dict.mem. now rewrite Htype.
Qed.


Section ExitStatus.

Variable E : env.








End ExitStatus.

(** ** What a run touches *)

Section Footprint.

Variable E : env.

Ltac world_cases :=
  repeat (cbn beta iota; break_inner); cbn; auto.

Lemma load_config_world path w :
  fst (load_config E path w) = Returned (default [] (loaded_config E)) /\
  snd (load_config E path w) = w
  \/ (forall config, fst (load_config E path w) <> Returned config) /\
     only_printed w (snd (load_config E path w)).
Proof.
  unfold load_config, safe_load, validate, loaded_config, only_printed. unfold_monad.
  destruct (env_file E) as [msg|msg|config]; cbn.
  - right. split; [discriminate|]. repeat split; eauto.
  - right. split; [discriminate|]. repeat split; eauto.
  - destruct (Dict.mem config "github_token"); cbn.
    + destruct (Dict.mem config "repo_name"); cbn.
      * now left.
      * right. split; [discriminate|]. repeat split; try reflexivity.
        exists []. now rewrite app_nil_r.
    + right. split; [discriminate|]. repeat split; try reflexivity.
      exists []. now rewrite app_nil_r.
Qed.

Lemma create_github_repo_world config w token name :
  Dict.get config "github_token" = Some token ->
  Dict.get config "repo_name" = Some name ->
  net (snd (create_github_repo E config w))
  = net w ++ [POST api_url (build_headers token) (build_repo_data config name)] /\
  files (snd (create_github_repo E config w)) = files w /\
  clones (snd (create_github_repo E config w)) = clones w.
Proof.
  intros Ht Hn. unfold create_github_repo, on_request_exception. unfold_monad.
  rewrite Ht, Hn. world_cases.
Qed.

Lemma clone_repo_world clone_url directory w :
  net (snd (clone_repo E clone_url directory w)) = net w /\
  files (snd (clone_repo E clone_url directory w)) = files w /\
  (clones (snd (clone_repo E clone_url directory w)) = clones w /\
   (forall repo_dir, fst (clone_repo E clone_url directory w) <> Returned repo_dir)
   \/ clones (snd (clone_repo E clone_url directory w))
      = clones w ++ [(clone_url, target_directory directory clone_url)] /\
      fst (clone_repo E clone_url directory w)
      = Returned (target_directory directory clone_url)).
Proof.
  unfold clone_repo, clone_from. unfold_monad.
  destruct (env_clone E); cbn; repeat split; auto.
Qed.

Lemma add_gitignore_world repo_dir gitignore_type w :
  net (snd (add_gitignore E repo_dir gitignore_type w))
  = net w ++ [GET (gitignore_url gitignore_type)] /\
  clones (snd (add_gitignore E repo_dir gitignore_type w)) = clones w /\
  (files (snd (add_gitignore E repo_dir gitignore_type w)) = files w
   \/ exists content,
        files (snd (add_gitignore E repo_dir gitignore_type w))
        = <[os_path_join repo_dir ".gitignore" := content]> (files w)).
Proof.
  unfold add_gitignore, git_add, git_commit, git_push. unfold_monad.
  destruct (env_get E) as [ex|g]; cbn beta iota; [cbn; auto|].
  destruct (status_code g =? 200);
    destruct (env_add E); destruct (env_commit E); destruct (env_push E);
    cbn; repeat split; eauto.
Qed.

(** The four shapes of what a run leaves behind, by how far it got. *)
Lemma main_footprint a w o w' :
  main E a w = (o, w') ->
  (net w' = net w /\ clones w' = clones w /\ files w' = files w)
  \/ (exists headers body,
         net w' = net w ++ [POST api_url headers body] /\
         clones w' = clones w /\ files w' = files w)
  \/ (exists headers body clone_url,
         created_clone_url E = Some clone_url /\
         net w' = net w ++ [POST api_url headers body] /\
         clones w' = clones w ++ [(clone_url, target_directory (arg_directory a) clone_url)] /\
         files w' = files w)
  \/ (exists headers body clone_url gitignore_type,
         created_clone_url E = Some clone_url /\
         net w' = net w ++ [POST api_url headers body; GET (gitignore_url gitignore_type)] /\
         clones w' = clones w ++ [(clone_url, target_directory (arg_directory a) clone_url)] /\
         (files w' = files w
          \/ exists content,
               files w'
               = <[os_path_join (target_directory (arg_directory a) clone_url) ".gitignore"
                     := content]> (files w))).
Proof.
  unfold main. unfold bind at 1.
  destruct (load_config_world (arg_config a) w) as [[Hret Hw]|[Hfail Hprinted]].
  2:{ intros Hmain. left.
      destruct (load_config E (arg_config a) w) as [[config|code|e] w0]; cbn in *.
      - exfalso. now apply (Hfail config).
      - injection Hmain as _ <-. destruct Hprinted as (_ & ? & ? & ? & _). auto.
      - injection Hmain as _ <-. destruct Hprinted as (_ & ? & ? & ? & _). auto. }
  destruct (load_config E (arg_config a) w) as [o0 w0] eqn:Hload. cbn in Hret, Hw. subst o0 w0.
  apply load_config_returned in Hload as [Hload _].
  destruct (loaded_config E) as [config|] eqn:Hcfg; [|discriminate]. cbn.
  destruct (loaded_config_inv _ _ Hcfg) as (_ & [token Ht] & [name Hn]).
  unfold bind at 1.
  destruct (verbose_stage (arg_verbose a) config w) as (w1 & -> & Hframe).
  destruct Hframe as (_ & Hn1 & Hf1 & Hc1 & _).
  unfold bind at 1.
  destruct (create_github_repo_world config w1 token name Ht Hn) as (Hn2 & Hf2 & Hc2).
  destruct (create_github_repo E config w1) as [[clone_url|code|e] w2] eqn:Hcreate;
    cbn in Hn2, Hf2, Hc2.
  2,3: intros [= _ <-]; right; left;
       exists (build_headers token), (build_repo_data config name);
       rewrite Hn2, Hf2, Hc2, Hn1, Hf1, Hc1; auto.
  apply create_github_repo_returned in Hcreate.
  unfold bind at 1.
  destruct (clone_repo_world clone_url (arg_directory a) w2) as (Hn3 & Hf3 & Hc3).
  destruct (clone_repo E clone_url (arg_directory a) w2) as [[repo_dir|code|e] w3] eqn:Hclone;
    cbn in Hn3, Hf3, Hc3.
  2,3: intros [= _ <-]; right; left;
       exists (build_headers token), (build_repo_data config name);
       destruct Hc3 as [[Hc3 _]|[_ Hret]]; [|discriminate Hret];
       rewrite Hn3, Hf3, Hc3, Hn2, Hf2, Hc2, Hn1, Hf1, Hc1; auto.
  destruct Hc3 as [[_ Hnot]|[Hc3 Hret]]; [exfalso; now apply (Hnot repo_dir)|].
  injection Hret as ->.
  unfold bind at 1.
  destruct (Dict.mem config "gitignore_type") eqn:Hmem.
  - unfold Dict.mem in Hmem. unfold subscript, bind at 1.
    destruct (Dict.get config "gitignore_type") as [gitignore_type|]; [|discriminate].
    unfold ret.
    destruct (add_gitignore_world (target_directory (arg_directory a) clone_url)
                gitignore_type w3) as (Hn4 & Hc4 & Hf4).
    destruct (add_gitignore E (target_directory (arg_directory a) clone_url)
                gitignore_type w3) as [[[]|code|e] w4]; cbn in Hn4, Hc4, Hf4; cbn;
      intros [= _ <-]; right; right; right;
      exists (build_headers token), (build_repo_data config name), clone_url, gitignore_type;
      (split; [exact Hcreate|]); cbn;
      rewrite Hn4, Hc4, Hn3, Hc3, Hn2, Hc2, Hn1, Hc1, <- app_assoc;
      (split; [reflexivity|]); (split; [reflexivity|]);
      (destruct Hf4 as [Hf4|[content Hf4]]; rewrite Hf4, Hf3, Hf2, Hf1; eauto).
  - cbn. intros [= _ <-]. right; right; left.
    exists (build_headers token), (build_repo_data config name), clone_url. cbn.
    rewrite Hn3, Hf3, Hc3, Hn2, Hf2, Hc2, Hn1, Hf1, Hc1. auto.
Qed.

End Footprint.

(** X19: A run sends at most two requests, in this order: the creation POST,
    then the GET of the template.  There is never a GET without the POST
    before it, and nothing is sent twice. *)
Theorem main_sends_post_then_get E a w :
  exists sent,
    net (snd (main E a w)) = net w ++ sent /\
    (sent = []
     \/ (exists headers body, sent = [POST api_url headers body])
     \/ (exists headers body gitignore_type,
            sent = [POST api_url headers body; GET (gitignore_url gitignore_type)])).
Proof.
  destruct (main E a w) as [o w'] eqn:Hmain. cbn.
  destruct (main_footprint E a w o w' Hmain)
    as [(Hnet & _)|[(h & b & Hnet & _)|[(h & b & u & _ & Hnet & _)
                                       |(h & b & u & t & _ & Hnet & _)]]];
    rewrite Hnet.
  - exists []. rewrite app_nil_r. auto.
  - eexists. split; [reflexivity|]. eauto.
  - eexists. split; [reflexivity|]. eauto.
  - eexists. split; [reflexivity|]. eauto 6.
Qed.

(** X20: On the local machine a run clones at most once, and only the URL that
    the creation answered with; it writes at most one file, [.gitignore]
    in the directory of that clone. *)
Theorem main_local_footprint E a w :
  (clones (snd (main E a w)) = clones w /\ files (snd (main E a w)) = files w)
  \/ exists clone_url,
       created_clone_url E = Some clone_url /\
       clones (snd (main E a w))
       = clones w ++ [(clone_url, target_directory (arg_directory a) clone_url)] /\
       (files (snd (main E a w)) = files w
        \/ exists content,
             files (snd (main E a w))
             = <[os_path_join (target_directory (arg_directory a) clone_url) ".gitignore"
                   := content]> (files w)).
Proof.
  destruct (main E a w) as [o w'] eqn:Hmain. cbn.
  destruct (main_footprint E a w o w' Hmain)
    as [(_ & Hc & Hf)|[(h & b & _ & Hc & Hf)|[(h & b & u & Hu & _ & Hc & Hf)
                                             |(h & b & u & t & Hu & _ & Hc & Hf)]]].
  - now left.
  - now left.
  - right. exists u. auto.
  - right. exists u. auto.
Qed.

(** ** The token and what a run shows *)

Section Token.

Variables E1 E2 : env.
Hypothesis Hsame : same_answers E1 E2.

Lemma same_run_bind {A B} (m1 m2 : M A) (k1 k2 : A -> M B) w1 w2 :
  same_run (m1 w1) (m2 w2) ->
  (forall a w1' w2', hide_headers w1' = hide_headers w2' ->
                     same_run (k1 a w1') (k2 a w2')) ->
  same_run (bind m1 k1 w1) (bind m2 k2 w2).
Proof.
  unfold bind, same_run.
  destruct (m1 w1) as [[a1|c1|e1] w1'], (m2 w2) as [[a2|c2|e2] w2']; cbn;
    intros [Ho Hw] Hk; try discriminate; injection Ho as ->; auto.
Qed.

Ltac same_cases Hw :=
  destruct Hsame as (Hpost & Hclone & Hget & Hadd & Hcommit & Hpush & Habspath);
  unfold same_run; unfold_monad;
  rewrite ?Hpost, ?Hclone, ?Hget, ?Hadd, ?Hcommit, ?Hpush;
  unfold hide_headers in Hw; injection Hw as Hs Hn Hf Hc Hst Hco Hpu;
  repeat (cbn beta iota; break_inner);
  (split; [reflexivity|]);
  unfold hide_headers; cbn; rewrite ?map_app; cbn; congruence.

Lemma print_same line w1 w2 :
  hide_headers w1 = hide_headers w2 -> same_run (print line w1) (print line w2).
Proof. intros Hw. same_cases Hw. Qed.

Lemma clone_repo_same clone_url directory w1 w2 :
  hide_headers w1 = hide_headers w2 ->
  same_run (clone_repo E1 clone_url directory w1) (clone_repo E2 clone_url directory w2).
Proof. intros Hw. unfold clone_repo, clone_from. same_cases Hw. Qed.

Lemma add_gitignore_same repo_dir gitignore_type w1 w2 :
  hide_headers w1 = hide_headers w2 ->
  same_run (add_gitignore E1 repo_dir gitignore_type w1)
           (add_gitignore E2 repo_dir gitignore_type w2).
Proof.
  intros Hw. unfold add_gitignore, git_add, git_commit, git_push. same_cases Hw.
Qed.

Lemma build_repo_data_same c1 c2 name :
  same_but_token c1 c2 -> build_repo_data c1 name = build_repo_data c2 name.
Proof.
  intros Hc. unfold build_repo_data, copy_if_present, Dict.get_default.
  now rewrite !(same_but_token_get c1 c2) by (assumption || discriminate).
Qed.

Lemma create_github_repo_same c1 c2 w1 w2 :
  same_but_token c1 c2 ->
  hide_headers w1 = hide_headers w2 ->
  same_run (create_github_repo E1 c1 w1) (create_github_repo E2 c2 w2).
Proof.
  intros Htok Hw. unfold create_github_repo, on_request_exception.
  pose proof (same_but_token_mem c1 c2 "github_token" Htok) as Hmem.
  unfold Dict.mem in Hmem. unfold subscript, bind at 1 2 7 8.
  rewrite (same_but_token_get c1 c2 "repo_name" Htok) by discriminate.
  destruct (Dict.get c1 "github_token") as [t1|], (Dict.get c2 "github_token") as [t2|];
    try discriminate; [|same_cases Hw].
  unfold ret, raise.
  destruct (Dict.get c2 "repo_name") as [name|]; [|same_cases Hw].
  rewrite (build_repo_data_same c1 c2 name Htok).
  same_cases Hw.
Qed.

Lemma load_config_same c1 c2 path w :
  env_file E1 = FileParsed c1 ->
  env_file E2 = FileParsed c2 ->
  same_but_token c1 c2 ->
  (load_config E1 path w = (Returned c1, w) /\ load_config E2 path w = (Returned c2, w))
  \/ (exists e, load_config E1 path w = (Raised e, w) /\ load_config E2 path w = (Raised e, w)).
Proof.
  intros H1 H2 Hc. unfold load_config, safe_load, validate. unfold_monad.
  rewrite H1, H2, <- !(same_but_token_mem c1 c2) by assumption.
  destruct (Dict.mem c1 "github_token"); cbn; [|eauto].
  destruct (Dict.mem c1 "repo_name"); cbn; eauto.
Qed.

Lemma main_same a w c1 c2 :
  env_file E1 = FileParsed c1 ->
  env_file E2 = FileParsed c2 ->
  same_but_token c1 c2 ->
  same_run (main E1 a w) (main E2 a w).
Proof.
  intros H1 H2 Hc. unfold main. unfold bind at 1 8.
  destruct (load_config_same c1 c2 (arg_config a) w H1 H2 Hc)
    as [[-> ->]|(e & -> & ->)]; [|split; reflexivity].
  apply same_run_bind.
  { destruct (arg_verbose a); [|split; reflexivity].
    unfold echo_config, bind, print.
    rewrite (echo_items_same_but_token c1 c2 Hc). split; reflexivity. }
  intros ? w1 w2 Hw.
  apply same_run_bind; [now apply create_github_repo_same|].
  intros clone_url w1' w2' Hw'.
  apply same_run_bind; [now apply clone_repo_same|].
  intros repo_dir w1'' w2'' Hw''.
  apply same_run_bind.
  { rewrite <- (same_but_token_mem c1 c2 "gitignore_type" Hc).
    destruct (Dict.mem c1 "gitignore_type"); [|now split].
    unfold subscript. rewrite <- (same_but_token_get c1 c2 "gitignore_type" Hc) by discriminate.
    destruct (Dict.get c1 "gitignore_type") as [t|]; [|now split].
    apply same_run_bind; [now split|]. intros ? w3 w4 Hw3. now apply add_gitignore_same. }
  intros ? w3 w4 Hw3.
  apply same_run_bind; [now apply print_same|].
  intros ? w5 w6 Hw5.
  destruct Hsame as (_ & _ & _ & _ & _ & _ & Habspath). rewrite Habspath.
  now apply print_same.
Qed.

End Token.

(** X21: The token shows in the headers of the request and nowhere else: when
    the network and git answer the same, two runs whose configurations
    differ only in the value of [github_token] end alike, print the same
    lines, send the same URLs and bodies, and leave the same files, clones
    and commits. *)
Theorem token_shows_only_in_headers E1 E2 a w c1 c2 :
  env_file E1 = FileParsed c1 ->
  env_file E2 = FileParsed c2 ->
  same_answers E1 E2 ->
  same_but_token c1 c2 ->
  fst (main E1 a w) = fst (main E2 a w) /\
  stdout (snd (main E1 a w)) = stdout (snd (main E2 a w)) /\
  map without_headers (net (snd (main E1 a w)))
  = map without_headers (net (snd (main E2 a w))) /\
  files (snd (main E1 a w)) = files (snd (main E2 a w)) /\
  clones (snd (main E1 a w)) = clones (snd (main E2 a w)) /\
  commits (snd (main E1 a w)) = commits (snd (main E2 a w)).
Proof.
  intros H1 H2 Hsame Htok.
  destruct (main_same E1 E2 Hsame a w c1 c2 H1 H2 Htok) as [Ho Hw].
  unfold hide_headers in Hw. injection Hw as Hs Hn Hf Hc _ Hco _.
  auto 10.
Qed.

Lemma token_shows_only_in_headers_witness :
  let E1 := Sample.env_ok Sample.with_python in
  let E2 := Sample.env_ok Sample.with_other_token in
  let a := mkArgs "github_config.yml" None true in
  fst (main E1 a Sample.world0) = fst (main E2 a Sample.world0) /\
  stdout (snd (main E1 a Sample.world0)) = stdout (snd (main E2 a Sample.world0)) /\
  map without_headers (net (snd (main E1 a Sample.world0)))
  = map without_headers (net (snd (main E2 a Sample.world0))) /\
  files (snd (main E1 a Sample.world0)) = files (snd (main E2 a Sample.world0)) /\
  clones (snd (main E1 a Sample.world0)) = clones (snd (main E2 a Sample.world0)) /\
  commits (snd (main E1 a Sample.world0)) = commits (snd (main E2 a Sample.world0)).
Proof.
  apply (token_shows_only_in_headers (Sample.env_ok Sample.with_python)
           (Sample.env_ok Sample.with_other_token)
           (mkArgs "github_config.yml" None true) Sample.world0
           Sample.with_python Sample.with_other_token).
  - reflexivity.
  - reflexivity.
  - repeat split; reflexivity.
  - repeat constructor; cbn; congruence.
Defined.
